(** * Odin file indexer (indexer.py): a shallow embedding and its properties

    The Python module walks a directory tree, hashes every file, classifies
    it and records it in a PostgreSQL table.  The functions of the module
    are embedded below under their own names.  What the module gets from
    outside is modelled as follows:

    - Python [str] values are Rocq strings whose characters are code points
      below 256; [bytes] values are lists of bytes;
    - the libraries [hashlib] and [re] are an interface ([Libraries]);
    - the file system and the database server are part of the [World] that
      every function threads through; a Python exception is the [Raise]
      outcome of a computation;
    - every call that reaches the operating system or the database server
      is recorded in the world's [trace], every [logger] call in its
      [log]. *)

From Stdlib Require Import List String Ascii ZArith Bool Arith Lia.
From Stdlib Require Strings.Byte.
From Stdlib Require Import DecimalString.
Import ListNotations.
Open Scope string_scope.

(** ** Python strings *)

Module Str.

(** [str.lower] on one character below 256: the letters 'A'..'Z' and the
    capital letters of Latin-1 (192..222 but the sign at 215) move up by
    32. *)
Definition lower_char (c : ascii) : ascii :=
  let n := nat_of_ascii c in
  if (((65 <=? n) && (n <=? 90))
      || ((192 <=? n) && (n <=? 222) && negb (n =? 215)))%nat
  then ascii_of_nat (n + 32) else c.

Fixpoint lower (s : string) : string :=
  match s with
  | EmptyString => EmptyString
  | String c t => String (lower_char c) (lower t)
  end.

(** [s.startswith(p)] *)
Fixpoint startswith (p s : string) : bool :=
  match p, s with
  | EmptyString, _ => true
  | String _ _, EmptyString => false
  | String a p', String b s' => Ascii.eqb a b && startswith p' s'
  end.

(** [s.endswith(p)] for a one-character [p] *)
Fixpoint endswith_char (c : ascii) (s : string) : bool :=
  match s with
  | EmptyString => false
  | String a EmptyString => Ascii.eqb a c
  | String _ t => endswith_char c t
  end.

(** [needle in s] *)
Fixpoint contains (needle s : string) : bool :=
  startswith needle s ||
  match s with
  | EmptyString => false
  | String _ t => contains needle t
  end.

(** Python's [str.isspace] for one character below 256. *)
Definition isspace (c : ascii) : bool :=
  let n := nat_of_ascii c in
  (((9 <=? n) && (n <=? 13)) || ((28 <=? n) && (n <=? 32))
   || (n =? 133) || (n =? 160))%nat.

Fixpoint lstrip (s : string) : string :=
  match s with
  | EmptyString => EmptyString
  | String c t => if isspace c then lstrip t else s
  end.

(** [rstrip] drops the longest all-blank suffix. *)
Fixpoint rstrip (s : string) : string :=
  match s with
  | EmptyString => EmptyString
  | String c t =>
      match rstrip t with
      | EmptyString => if isspace c then EmptyString else String c EmptyString
      | t' => String c t'
      end
  end.

(** [s.strip()] *)
Definition strip (s : string) : string := rstrip (lstrip s).

(** Text mode translates the line ends "\r\n" and "\r" to "\n". *)
Fixpoint universal_newlines (s : string) : string :=
  match s with
  | EmptyString => EmptyString
  | String c t =>
      if Ascii.eqb c "013"%char then
        match t with
        | String c' t' =>
            if Ascii.eqb c' "010"%char
            then String "010"%char (universal_newlines t')
            else String "010"%char (universal_newlines t)
        | EmptyString => String "010"%char EmptyString
        end
      else String c (universal_newlines t)
  end.

(** The lines of a text, each with its newline, as [readlines] gives
    them. *)
Fixpoint readlines_from (cur : string) (s : string) : list string :=
  match s with
  | EmptyString => match cur with EmptyString => [] | _ => [cur] end
  | String c t =>
      if Ascii.eqb c "010"%char
      then (cur ++ String c EmptyString) :: readlines_from EmptyString t
      else readlines_from (cur ++ String c EmptyString) t
  end.

Definition splitlines_keepends (s : string) : list string :=
  readlines_from EmptyString (universal_newlines s).

(** [str(n)] for a natural number *)
Definition of_nat (n : nat) : string := NilZero.string_of_uint (Nat.to_uint n).

End Str.

(** ** os.path *)

Module OsPath.

Definition sep : ascii := "/"%char.
Definition extsep : ascii := "."%char.

(** [posixpath.join(a, b)] *)
Definition join (a b : string) : string :=
  if Str.startswith "/" b then b
  else if (a =? "") || Str.endswith_char sep a then a ++ b
  else a ++ "/" ++ b.

(** [s.rfind(c)] scanned from position [i]: the last index of [c], or
    [-1]. *)
Fixpoint rfind_from (c : ascii) (s : string) (i : Z) : Z :=
  match s with
  | EmptyString => (-1)%Z
  | String a t =>
      let r := rfind_from c t (i + 1)%Z in
      if (0 <=? r)%Z then r else if Ascii.eqb a c then i else (-1)%Z
  end.

Definition rfind (c : ascii) (s : string) : Z := rfind_from c s 0%Z.

(** Is some character of [s] at an index in [[lo, hi)] different from
    [c]?  (the "skip all leading dots" loop of [genericpath._splitext]) *)
Fixpoint other_char_between (c : ascii) (s : string) (i lo hi : Z) : bool :=
  match s with
  | EmptyString => false
  | String a t =>
      ((lo <=? i)%Z && (i <? hi)%Z && negb (Ascii.eqb a c))
      || other_char_between c t (i + 1)%Z lo hi
  end.

(** [os.path.splitext(p)] *)
Definition splitext (p : string) : string * string :=
  let sepIndex := rfind sep p in
  let dotIndex := rfind extsep p in
  if (sepIndex <? dotIndex)%Z
     && other_char_between extsep p 0%Z (sepIndex + 1)%Z dotIndex
  then (substring 0 (Z.to_nat dotIndex) p,
        substring (Z.to_nat dotIndex) (String.length p - Z.to_nat dotIndex) p)
  else (p, "").

End OsPath.

(** Python [bytes] *)
Definition bytes : Type := list Init.Byte.byte.

(** ** Exceptions and outcomes *)

(** The exceptions the module can meet: [OSError] and two of its subclasses
    from the file system, [re.error] from [re.compile], and psycopg2's
    errors from the database. *)
Inductive exn : Type :=
| FileNotFoundError
| PermissionError
| OSError
| ReError
| OperationalError
| InsufficientPrivilege
| UndefinedTable
| UniqueViolation
| InFailedSqlTransaction.

(** [str(e)], as the f-strings of the log messages render it.  The texts
    are representative ones: a real message also carries the error number
    and the path, or the server's detail.  The general statements speak of
    [exn_str e] for the exception [e] that was raised. *)
Definition exn_str (e : exn) : string :=
  match e with
  | FileNotFoundError => "No such file or directory"
  | PermissionError => "Permission denied"
  | OSError => "Input/output error"
  | ReError => "invalid regular expression"
  | OperationalError => "server closed the connection unexpectedly"
  | InsufficientPrivilege => "permission denied for schema public"
  | UndefinedTable => "relation does not exist"
  | UniqueViolation => "duplicate key value violates unique constraint"
  | InFailedSqlTransaction => "current transaction is aborted"
  end.

Inductive Res (A : Type) : Type :=
| Ok (a : A)
| Raise (e : exn).
Arguments Ok {A} a.
Arguments Raise {A} e.

(** ** hashlib and re *)

(** [md5_hexdigest bs] is the hex digest [hashlib.md5] gives once the bytes
    [bs] have been fed to it; [re_valid s] tells whether [re.compile(s)]
    succeeds; [re_search s text] is [re.compile(s).search(text)] seen as a
    truth value. *)
Class Libraries : Type := {
  md5_hexdigest : bytes -> string;
  re_valid : string -> bool;
  re_search : string -> string -> bool
}.

(** A compiled pattern object; [pattern] is its source, as in Python. *)
Record Pattern : Type := { pattern : string }.

(** ** The file system *)

(** A file: whether [stat] and [open] succeed on it, its bytes, and the
    offset from which the device fails to deliver them ([None]: never). *)
Record File : Type := {
  stat_ok : bool;
  open_ok : bool;
  data : bytes;
  bad_from : option nat
}.

(** [fs_file] resolves a path; [fs_walk top] lists the
    [(root, dirs, files)] triples [os.walk(top)] yields, in order. *)
Record FileSystem : Type := {
  fs_file : string -> option File;
  fs_walk : string -> list (string * list string * list string)
}.

(** ** The database *)

(** A row of [indexed_files]: the five columns the module writes.  The
    columns the server fills in ([id], [date_indexed]) are left out; the
    module never reads them.  The length bounds of the VARCHAR columns are
    left out too: the file systems the module walks keep a file name within
    255 characters, an MD5 hex digest has 32 and the longest category 9. *)
Record Row : Type := {
  file_name : string;
  path : string;
  md5_hash : string;
  file_size : Z;
  category : string
}.

(** The three SQL statements of the module. *)
Inductive Stmt : Type :=
| CreateTable
| SelectByHash (h : string)
| InsertRow (r : Row).

(** What the world does at one call to the server: nothing special, make
    the call fail, or let another client commit rows just before it. *)
Inductive Turn : Type :=
| Calm
| Fail (e : exn)
| Concurrent (rows : list Row).

(** The server and the client's connection to it.  [table] is
    [indexed_files] ([None]: the table does not exist), [conns] the number
    of open connections of this process, [txn_failed] whether the
    connection's transaction is in the failed state, [script] the turns
    still to come (none left: every call is [Calm]). *)
Record Db : Type := {
  table : option (list Row);
  conns : nat;
  txn_failed : bool;
  script : list Turn
}.

Definition rows_of (t : option (list Row)) : list Row :=
  match t with Some rows => rows | None => [] end.

Definition has_hash (h : string) (rows : list Row) : bool :=
  existsb (fun r => md5_hash r =? h) rows.

Definition find_hash (h : string) (rows : list Row) : option Row :=
  find (fun r => md5_hash r =? h) rows.

(** [md5_hash] is UNIQUE: a row whose hash is present is refused. *)
Definition add_unique (rows : list Row) (r : Row) : list Row :=
  if has_hash (md5_hash r) rows then rows else (rows ++ [r])%list.

Definition others_commit (new : list Row) (t : option (list Row))
  : option (list Row) :=
  Some (fold_left add_unique new (rows_of t)).

Definition take_turn (d : Db) : Turn * Db :=
  match script d with
  | [] => (Calm, d)
  | t :: rest =>
      (t, {| table := match t with
                      | Concurrent rows => others_commit rows (table d)
                      | _ => table d
                      end;
             conns := conns d;
             txn_failed := txn_failed d;
             script := rest |})
  end.

(** [psycopg2.connect(...)] *)
Definition db_connect (d : Db) : Res unit * Db :=
  let (t, d1) := take_turn d in
  match t with
  | Fail e => (Raise e, d1)
  | _ => (Ok tt, {| table := table d1; conns := S (conns d1);
                    txn_failed := false; script := script d1 |})
  end.

(** The effect of a statement on the table, and the row [fetchone] would
    return after it.  The values of a row are taken to be ones the driver
    can send: a file name that is no valid text in the client's encoding,
    which the driver refuses before the statement reaches the server, is
    not represented. *)
Definition run_stmt (s : Stmt) (t : option (list Row))
  : Res (option Row) * option (list Row) :=
  match s with
  | CreateTable => (Ok None, Some (rows_of t))
  | SelectByHash h =>
      match t with
      | None => (Raise UndefinedTable, t)
      | Some rows => (Ok (find_hash h rows), t)
      end
  | InsertRow r =>
      match t with
      | None => (Raise UndefinedTable, t)
      | Some rows =>
          if has_hash (md5_hash r) rows then (Raise UniqueViolation, t)
          else (Ok None, Some (rows ++ [r])%list)
      end
  end.

Definition fail_txn (d : Db) : Db :=
  {| table := table d; conns := conns d; txn_failed := true;
     script := script d |}.

Definition with_table (t : option (list Row)) (d : Db) : Db :=
  {| table := t; conns := conns d; txn_failed := txn_failed d;
     script := script d |}.

(** [cursor.execute(stmt)] followed by [cursor.fetchone()] where the
    module calls it.  A statement that fails leaves the transaction in the
    failed state, in which every later statement is refused; the module
    never rolls back.  A statement takes effect when it is executed: the
    faults of the world fall on [connect] and on statements, and the
    [commit] that follows a statement succeeds. *)
Definition db_execute (s : Stmt) (d : Db) : Res (option Row) * Db :=
  let (t, d1) := take_turn d in
  if txn_failed d1 then (Raise InFailedSqlTransaction, d1)
  else
    match t with
    | Fail e => (Raise e, fail_txn d1)
    | _ =>
        match run_stmt s (table d1) with
        | (Ok r, t') => (Ok r, with_table t' d1)
        | (Raise e, _) => (Raise e, fail_txn d1)
        end
    end.

(** [connection.close()] *)
Definition db_close (d : Db) : Db :=
  {| table := table d; conns := pred (conns d);
     txn_failed := txn_failed d; script := script d |}.

(** ** The world, its log and its trace *)

Inductive Level : Type := DEBUG | INFO | WARNING | ERROR | CRITICAL.

(** The calls that leave the process. *)
Inductive Event : Type :=
| EvExists (p : string)
| EvOpenText (p : string)
| EvWalk (top : string)
| EvGetsize (p : string)
| EvOpenBinary (p : string)
| EvConnect
| EvExecute (s : Stmt)
| EvCommit
| EvClose.

Record World : Type := {
  fs : FileSystem;
  db : Db;
  log : list (Level * string);
  trace : list Event
}.

(** ** Computations: state and exceptions *)

Definition M (A : Type) : Type := World -> Res A * World.

Definition ret {A} (a : A) : M A := fun w => (Ok a, w).

Definition bind {A B} (m : M A) (k : A -> M B) : M B :=
  fun w => match m w with
           | (Ok a, w1) => k a w1
           | (Raise e, w1) => (Raise e, w1)
           end.

Definition raise {A} (e : exn) : M A := fun w => (Raise e, w).

(** [try: body  except Exception as e: handler(e)] *)
Definition try_except {A} (body : M A) (handler : exn -> M A) : M A :=
  fun w => match body w with
           | (Ok a, w1) => (Ok a, w1)
           | (Raise e, w1) => handler e w1
           end.

Declare Scope py_scope.
Delimit Scope py_scope with py.
Notation "x <- m ;; k" := (bind m (fun x => k))
  (at level 61, m at next level, right associativity) : py_scope.
Notation "m ;; k" := (bind m (fun _ => k))
  (at level 61, right associativity) : py_scope.
Open Scope py_scope.

Definition emit (e : Event) : M unit :=
  fun w => (Ok tt, {| fs := fs w; db := db w; log := log w;
                      trace := (trace w ++ [e])%list |}).

Definition logger (lv : Level) (msg : string) : M unit :=
  fun w => (Ok tt, {| fs := fs w; db := db w;
                      log := (log w ++ [(lv, msg)])%list;
                      trace := trace w |}).

Definition get_fs : M FileSystem := fun w => (Ok (fs w), w).

(** Run an operation of the database on the world's database. *)
Definition on_db {A} (op : Db -> Res A * Db) : M A :=
  fun w => let (r, d) := op (db w) in
           (r, {| fs := fs w; db := d; log := log w; trace := trace w |}).

(** ** The module's functions *)

Section Program.

Context `{Libraries}.

(** *** Calls to the operating system *)

(** [os.path.exists(p)]: false also when [stat] fails. *)
Definition os_path_exists (p : string) : M bool :=
  emit (EvExists p);;
  fs0 <- get_fs;;
  ret (match fs_file fs0 p with Some f => stat_ok f | None => false end).

(** [os.path.getsize(p)] *)
Definition os_path_getsize (p : string) : M Z :=
  emit (EvGetsize p);;
  fs0 <- get_fs;;
  match fs_file fs0 p with
  | None => raise FileNotFoundError
  | Some f =>
      if stat_ok f then ret (Z.of_nat (List.length (data f)))
      else raise PermissionError
  end.

(** [open(p, mode)]; [ev] records the mode. *)
Definition open_file (ev : Event) (p : string) : M File :=
  emit ev;;
  fs0 <- get_fs;;
  match fs_file fs0 p with
  | None => raise FileNotFoundError
  | Some f => if open_ok f then ret f else raise PermissionError
  end.

(** [f.read(n)] at offset [pos]: the next [n] bytes at most, or an
    [OSError] when one of them lies in the part the device cannot
    deliver. *)
Definition f_read (f : File) (pos n : nat) : Res bytes :=
  let chunk := firstn n (skipn pos (data f)) in
  match bad_from f with
  | Some b => if (b <? pos + List.length chunk)%nat then Raise OSError
              else Ok chunk
  | None => Ok chunk
  end.

(** [f.readlines()] in text mode: the whole file is read, each byte is one
    character, line ends are translated.  This is what every locale's
    codec does on ASCII content; the decoding of other bytes (several
    bytes to one character, [UnicodeDecodeError]) is not represented, and
    the statements about the text of a file ask for [isascii]. *)
Definition f_readlines (f : File) : Res (list string) :=
  match f_read f 0 (List.length (data f)) with
  | Ok bs => Ok (Str.splitlines_keepends (string_of_list_byte bs))
  | Raise e => Raise e
  end.

Definition lift {A} (r : Res A) : M A := fun w => (r, w).

(** *** _calculate_md5 *)

Definition CHUNK : nat := 4096.

(** [for chunk in iter(lambda: f.read(4096), b""): md5_hash.update(chunk)]
    The hash object is the bytes fed to it so far.  Every chunk but the
    last, empty one advances the offset, so [fuel] above the file's
    length is never used up. *)
Fixpoint read_chunks (fuel : nat) (f : File) (pos : nat) (fed : bytes)
  : Res bytes :=
  match fuel with
  | O => Ok fed
  | S fuel' =>
      match f_read f pos CHUNK with
      | Raise e => Raise e
      | Ok [] => Ok fed
      | Ok chunk =>
          read_chunks fuel' f (pos + List.length chunk) (fed ++ chunk)%list
      end
  end.

Definition _calculate_md5 (file_path : string) : M (option string) :=
  logger DEBUG ("Calculating MD5 for " ++ file_path);;
  try_except
    (f <- open_file (EvOpenBinary file_path) file_path;;
     fed <- lift (read_chunks (S (List.length (data f))) f 0 []);;
     ret (Some (md5_hexdigest fed)))
    (fun e =>
       logger ERROR ("Error calculating MD5 for " ++ file_path ++ ": "
                     ++ exn_str e);;
       ret None).

(** *** _detect_category *)

(** The two dicts, in insertion order (the order [items()] iterates). *)
Definition categories : list (string * list string) :=
  [ ("movie", ["movie"; "movies"]);
    ("tv show", ["tv"; "show"; "shows"; "series"]);
    ("book", ["book"; "books"]);
    ("audiobook", ["audiobook"; "audiobooks"]) ].

Definition extension_categories : list (string * list string) :=
  [ ("audio", [".mp3"; ".wav"; ".flac"]);
    ("video", [".mp4"; ".avi"; ".mkv"; ".mov"]);
    ("picture", [".jpg"; ".jpeg"; ".png"; ".gif"; ".bmp"]);
    ("plaintext", [".txt"; ".md"; ".log"]);
    ("document", [".pdf"; ".doc"; ".docx"; ".xls"; ".xlsx"; ".ppt";
                  ".pptx"]) ].

(** [any(keyword in file_path.lower() for keyword in keywords)] *)
Definition any_keyword_in (file_path : string) (keywords : list string)
  : bool :=
  existsb (fun keyword => Str.contains keyword (Str.lower file_path))
          keywords.

(** [file_extension.lower() in extensions] *)
Definition extension_in (file_extension : string) (extensions : list string)
  : bool :=
  existsb (String.eqb (Str.lower file_extension)) extensions.

Definition _detect_category (file_path file_extension : string) : M string :=
  logger DEBUG ("Detecting category for " ++ file_path);;
  match find (fun item => any_keyword_in file_path (snd item)) categories with
  | Some (category, _) =>
      logger INFO ("Category detected from path: " ++ category);;
      ret category
  | None =>
      match find (fun item => extension_in file_extension (snd item))
                 extension_categories with
      | Some (category, _) =>
          logger INFO ("Category detected from file extension: "
                       ++ category);;
          ret category
      | None =>
          logger WARNING ("No category matched for " ++ file_path
                          ++ ". Categorized as 'other'");;
          ret "other"
      end
  end.

(** *** _load_exclusion_patterns *)

(** [re.compile(s)] *)
Definition re_compile (s : string) : M Pattern :=
  if re_valid s then ret {| pattern := s |} else raise ReError.

(** [[re.compile(line.strip()) for line in lines if line.strip()]] *)
Fixpoint compile_lines (lines : list string) : M (list Pattern) :=
  match lines with
  | [] => ret []
  | line :: rest =>
      if Str.strip line =? "" then compile_lines rest
      else
        p <- re_compile (Str.strip line);;
        ps <- compile_lines rest;;
        ret (p :: ps)
  end.

Definition _load_exclusion_patterns (directory : string)
  : M (list Pattern) :=
  logger DEBUG ("Loading exclusion patterns from " ++ directory);;
  let exclude_file_path := OsPath.join directory ".exclude_patterns" in
  found <- os_path_exists exclude_file_path;;
  if found then
    try_except
      (f <- open_file (EvOpenText exclude_file_path) exclude_file_path;;
       logger INFO ("Exclusion patterns loaded from " ++ exclude_file_path);;
       lines <- lift (f_readlines f);;
       compile_lines lines)
      (fun e =>
         logger ERROR ("Error loading exclusion patterns: " ++ exn_str e);;
         ret [])
  else ret [].

(** *** _should_exclude *)

Fixpoint _should_exclude (file_path : string)
         (exclude_patterns : list Pattern) : M bool :=
  match exclude_patterns with
  | [] => ret false
  | p :: rest =>
      if re_search (pattern p) file_path then
        logger INFO ("File " ++ file_path ++ " excluded by pattern "
                     ++ pattern p);;
        ret true
      else _should_exclude file_path rest
  end.

(** *** The connection *)

(** The connection object the functions hand around; the world has one
    server, so the object carries no data. *)
Inductive Connection : Type := connection_object.

Definition connect : M Connection :=
  emit EvConnect;;
  on_db db_connect;;
  ret connection_object.

(** [with connection.cursor() as cursor: cursor.execute(s)], and
    [cursor.fetchone()] for the row. *)
Definition execute (connection : Connection) (s : Stmt) : M (option Row) :=
  emit (EvExecute s);;
  on_db (db_execute s).

Definition commit (connection : Connection) : M unit := emit EvCommit.

Definition close (connection : Connection) : M unit :=
  emit EvClose;;
  on_db (fun d => (Ok tt, db_close d)).

(** *** _create_database *)

Definition _create_database (connection : Connection) : M unit :=
  logger DEBUG "Creating database table if not exists";;
  try_except
    (execute connection CreateTable;;
     commit connection;;
     logger INFO "Database table created or already exists.")
    (fun e =>
       logger CRITICAL ("Error creating database table: " ++ exn_str e)).

(** *** _index_directory *)

(** The body of the inner loop, for one file name of one directory;
    [continue] hands the index back as it is. *)
Definition index_file (root file_name : string)
           (exclude_patterns : list Pattern) (connection : Connection)
           (file_index : list Row) : M (list Row) :=
  if file_name =? ".exclude_patterns" then ret file_index
  else
    let file_path := OsPath.join root file_name in
    excluded <- _should_exclude file_path exclude_patterns;;
    if (excluded : bool) then ret file_index
    else
      file_size <- os_path_getsize file_path;;
      let file_extension := snd (OsPath.splitext file_name) in
      file_hash <- _calculate_md5 file_path;;
      match file_hash with
      | None =>
          logger ERROR ("Skipping " ++ file_path ++ " due to MD5 error");;
          ret file_index
      | Some file_hash =>
          existing_file <- execute connection (SelectByHash file_hash);;
          match existing_file with
          | Some _ =>
              logger INFO ("File already indexed: " ++ file_name
                           ++ " (MD5: " ++ file_hash ++ ")");;
              ret file_index
          | None =>
              file_category <- _detect_category file_path file_extension;;
              let entry := {| file_name := file_name;
                              path := file_path;
                              md5_hash := file_hash;
                              file_size := file_size;
                              category := file_category |} in
              execute connection (InsertRow entry);;
              commit connection;;
              logger INFO ("Indexed " ++ file_name ++ " with category "
                           ++ file_category);;
              ret (file_index ++ [entry])%list
          end
      end.

(** [for file_name in files: ...] *)
Fixpoint index_files (root : string) (files : list string)
         (exclude_patterns : list Pattern) (connection : Connection)
         (file_index : list Row) : M (list Row) :=
  match files with
  | [] => ret file_index
  | file_name :: rest =>
      file_index1 <- index_file root file_name exclude_patterns connection
                                file_index;;
      index_files root rest exclude_patterns connection file_index1
  end.

(** [for root, _, files in os.walk(directory): ...] *)
Fixpoint index_roots (walk : list (string * list string * list string))
         (exclude_patterns : list Pattern) (connection : Connection)
         (file_index : list Row) : M (list Row) :=
  match walk with
  | [] => ret file_index
  | (root, _, files) :: rest =>
      file_index1 <- index_files root files exclude_patterns connection
                                 file_index;;
      index_roots rest exclude_patterns connection file_index1
  end.

(** [os.walk(directory)] *)
Definition os_walk (directory : string)
  : M (list (string * list string * list string)) :=
  emit (EvWalk directory);;
  fs0 <- get_fs;;
  ret (fs_walk fs0 directory).

Definition _index_directory (directory : string)
           (exclude_patterns : list Pattern) (connection : Connection)
  : M (list Row) :=
  logger DEBUG ("Indexing directory: " ++ directory);;
  walk <- os_walk directory;;
  index_roots walk exclude_patterns connection [].

(** *** indexer *)

Definition indexer (directory : string) : M unit :=
  logger DEBUG ("Starting indexing for directory " ++ directory);;
  opened <- try_except
              (connection <- connect;;
               logger INFO "Connected to the database successfully.";;
               ret (Some connection))
              (fun e =>
                 logger CRITICAL ("Database connection error: "
                                  ++ exn_str e);;
                 ret None);;
  match opened with
  | None => ret tt
  | Some connection =>
      _create_database connection;;
      exclude_patterns <- _load_exclusion_patterns directory;;
      file_index <- _index_directory directory exclude_patterns connection;;
      logger INFO ("Indexing complete. "
                   ++ Str.of_nat (List.length file_index)
                   ++ " files indexed.");;
      close connection;;
      logger DEBUG "Database connection closed."
  end.

End Program.

(** ** Notions used to state the properties *)

Section Notions.

Context `{Libraries}.

(** The world after further log lines and further events. *)
Definition touch (l : list (Level * string)) (t : list Event) (w : World)
  : World :=
  {| fs := fs w; db := db w; log := (log w ++ l)%list;
     trace := (trace w ++ t)%list |}.

(** The world with another database state. *)
Definition with_db (d : Db) (w : World) : World :=
  {| fs := fs w; db := d; log := log w; trace := trace w |}.

(** An event of the walk: any call but opening or closing the
    connection. *)
Definition inner (e : Event) : Prop :=
  match e with
  | EvConnect | EvClose => False
  | _ => True
  end.

(** The events of loading the patterns. *)
Definition probes (e : Event) : Prop :=
  match e with
  | EvExists _ | EvOpenText _ => True
  | _ => False
  end.

(** The events that concern the file at path [p]: taking its size, opening
    it to hash it, inserting a row for it. *)
Definition concerns (p : string) (e : Event) : Prop :=
  match e with
  | EvGetsize q | EvOpenBinary q => q = p
  | EvExecute (InsertRow r) => path r = p
  | _ => False
  end.

(** [w'] is [w] some calls later, all of them events that satisfy [P] and
    none of them opening or closing the connection: same files, same number
    of open connections. *)
Definition evolves (P : Event -> Prop) (w w' : World) : Prop :=
  fs w' = fs w /\
  conns (db w') = conns (db w) /\
  exists t, trace w' = (trace w ++ t)%list /\ Forall P t.

Definition keeps (P : Event -> Prop) {A} (m : M A) : Prop :=
  forall w, evolves P w (snd (m w)).

(** Does one of the patterns match the path? *)
Definition excluded_by (pats : list Pattern) (p : string) : bool :=
  existsb (fun pat => re_search (pattern pat) p) pats.

(** Can the file be opened and read to its end? *)
Definition readable (f : File) : bool :=
  open_ok f &&
  match bad_from f with
  | Some b => (List.length (data f) <=? b)%nat
  | None => true
  end.

(** The digest of the file at a path, when it can be computed. *)
Definition digest_of (fsys : FileSystem) (p : string) : option string :=
  match fs_file fsys p with
  | Some f => if readable f then Some (md5_hexdigest (data f)) else None
  | None => None
  end.

(** What [stat] gives for a path. *)
Definition size_of (fsys : FileSystem) (p : string) : Res Z :=
  match fs_file fsys p with
  | None => Raise FileNotFoundError
  | Some f => if stat_ok f then Ok (Z.of_nat (List.length (data f)))
              else Raise PermissionError
  end.

(** What [open] gives for a path. *)
Definition open_result (fsys : FileSystem) (p : string) : Res File :=
  match fs_file fsys p with
  | None => Raise FileNotFoundError
  | Some f => if open_ok f then Ok f else Raise PermissionError
  end.

(** [bytes.isascii]: every byte is below 128, so that the text is the
    same in every encoding a locale can have. *)
Definition isascii (bs : bytes) : bool :=
  forallb (fun b => (Byte.to_nat b <? 128)%nat) bs.

(** The stripped, non-blank lines of a text: what the pattern file's
    list comprehension hands to [re.compile]. *)
Definition pattern_lines (text : string) : list string :=
  filter (fun s => negb (s =? ""))
         (map Str.strip (Str.splitlines_keepends text)).

(** The pairs (directory, file name) of a walk, in the order the two
    nested loops visit them. *)
Definition visits (walk : list (string * list string * list string))
  : list (string * string) :=
  flat_map (fun item => map (pair (fst (fst item))) (snd item)) walk.

(** The one loop over all visits that the two nested loops amount to. *)
Fixpoint index_visits (vs : list (string * string))
         (exclude_patterns : list Pattern) (connection : Connection)
         (file_index : list Row) : M (list Row) :=
  match vs with
  | [] => ret file_index
  | (root, file_name) :: rest =>
      file_index1 <- index_file root file_name exclude_patterns connection
                                file_index;;
      index_visits rest exclude_patterns connection file_index1
  end.

(** *** Deduplication as the specification words it

    The files that reach the lookup, each with its path and digest: not the
    pattern file, not excluded, and with a digest.  The list stops at the
    first file that is not excluded and on which [stat] fails: there the
    exception ends the walk. *)
Fixpoint candidates (fsys : FileSystem) (pats : list Pattern)
         (vs : list (string * string))
  : list (string * string) * option exn :=
  match vs with
  | [] => ([], None)
  | (root, file_name) :: rest =>
      let p := OsPath.join root file_name in
      if (file_name =? ".exclude_patterns") || excluded_by pats p
      then candidates fsys pats rest
      else
        match size_of fsys p with
        | Raise e => ([], Some e)
        | Ok _ =>
            let (cs, stop) := candidates fsys pats rest in
            (match digest_of fsys p with
             | Some h => (p, h) :: cs
             | None => cs
             end, stop)
        end
  end.

(** How a run over these files ends. *)
Definition outcome {A} (stop : option exn) (a : A) : Res A :=
  match stop with
  | None => Ok a
  | Some e => Raise e
  end.

Definition seen_hash (h : string) (seen : list string) : bool :=
  existsb (String.eqb h) seen.

(** "Only the first encountered produces a persisted row; subsequent ones
    are skipped": keep a file when its digest is neither in the store nor
    that of an earlier file. *)
Fixpoint first_encountered (seen : list string)
         (cs : list (string * string)) : list (string * string) :=
  match cs with
  | [] => []
  | (p, h) :: rest =>
      if seen_hash h seen then first_encountered seen rest
      else (p, h) :: first_encountered (seen ++ [h])%list rest
  end.

(** The events of a run spare the files the patterns exclude. *)
Definition spares (pats : list Pattern) (e : Event) : Prop :=
  forall p, concerns p e -> excluded_by pats p = false.

(** The entry [index_file] builds for a file. *)
Definition entry_of (root file_name : string) (size : Z) (h cat : string)
  : Row :=
  {| file_name := file_name; path := OsPath.join root file_name;
     md5_hash := h; file_size := size; category := cat |}.

(** What [indexer] does between opening the connection and closing it. *)
Definition indexing (directory : string) (connection : Connection)
  : M (list Row) :=
  _create_database connection;;
  exclude_patterns <- _load_exclusion_patterns directory;;
  _index_directory directory exclude_patterns connection.

(** Path and hash of a row. *)
Definition key (r : Row) : string * string := (path r, md5_hash r).

(** What an entry of the index says of the file it was made for. *)
Definition describes (fsys : FileSystem) (pats : list Pattern)
           (root name : string) (r : Row) : Prop :=
  (name =? ".exclude_patterns") = false
  /\ excluded_by pats (OsPath.join root name) = false
  /\ file_name r = name
  /\ path r = OsPath.join root name
  /\ size_of fsys (OsPath.join root name) = Ok (file_size r)
  /\ digest_of fsys (OsPath.join root name) = Some (md5_hash r)
  /\ forall w0, fst (_detect_category (OsPath.join root name)
                                      (snd (OsPath.splitext name)) w0)
                = Ok (category r).

(** The rows of the INSERT statements among some events. *)
Definition inserted (t : list Event) : list Row :=
  flat_map (fun e => match e with
                     | EvExecute (InsertRow r) => [r]
                     | _ => []
                     end) t.

(** The table of [d'] is the table of [d] with rows added at its end: no
    row removed, none changed. *)
Definition grows (d d' : Db) : Prop :=
  exists extra, rows_of (table d') = (rows_of (table d) ++ extra)%list.

(** A computation that takes every world to one related to it by [R]. *)
Definition lasting (R : World -> World -> Prop) {A} (m : M A) : Prop :=
  forall w, R w (snd (m w)).

(** The labels [_detect_category] has a [return] for, "audiobook" apart. *)
Definition labels : list string :=
  ["movie"; "tv show"; "book"; "audio"; "video"; "picture"; "plaintext";
   "document"; "other"].

(** An event that is no INSERT statement. *)
Definition no_insert (e : Event) : Prop := inserted [e] = [].

(** An event that is neither a lookup nor an INSERT statement. *)
Definition no_query (e : Event) : Prop :=
  match e with
  | EvExecute (SelectByHash _) | EvExecute (InsertRow _) => False
  | _ => True
  end.

(** An event of the file system about the file at a path. *)
Definition file_event (e : Event) : Prop :=
  match e with
  | EvGetsize _ | EvOpenBinary _ => True
  | _ => False
  end.

End Notions.

(** ** Sample worlds *)

Module Sample.

(** The libraries on the inputs the samples use: MD5 digests of the
    sample contents, and patterns without metacharacters, which [re]
    accepts and searches as plain substrings. *)
Definition digest (bs : bytes) : string :=
  let s := string_of_list_byte bs in
  if s =? "" then "d41d8cd98f00b204e9800998ecf8427e"
  else if s =? "X" then "02129bb861061d1a052c592e2dc6b383"
  else if s =? "Y" then "57cec4137b614c87cb4e24a3d003a3e0"
  else "00000000000000000000000000000000".

Fixpoint plain (s : string) : bool :=
  match s with
  | EmptyString => true
  | String c t => negb (Str.contains (String c EmptyString) ".^$*+?{}[]\|()")
                  && plain t
  end.

#[export] Instance libs : Libraries :=
  {| md5_hexdigest := digest; re_valid := plain; re_search := Str.contains |}.

Definition regular (content : string) : File :=
  {| stat_ok := true; open_ok := true;
     data := list_byte_of_string content; bad_from := None |}.

Definition files_of (l : list (string * File)) (p : string) : option File :=
  match find (fun e => fst e =? p) l with
  | Some (_, f) => Some f
  | None => None
  end.

Definition fresh_db (sc : list Turn) : Db :=
  {| table := None; conns := 0; txn_failed := false; script := sc |}.

Definition world (f : FileSystem) (d : Db) : World :=
  {| fs := f; db := d; log := []; trace := [] |}.

(** A directory [d] with two files. *)
Definition two_files : FileSystem :=
  {| fs_file := files_of [("d/a", regular "X"); ("d/b", regular "Y")];
     fs_walk := fun top => if top =? "d" then [("d", [], ["a"; "b"])]
                           else [] |}.

Definition row_elsewhere : Row :=
  {| file_name := "x"; path := "elsewhere/x";
     md5_hash := "02129bb861061d1a052c592e2dc6b383";
     file_size := 1; category := "other" |}.

(** Another indexer commits a row with the hash of [d/a] between this
    run's lookup and its insert. *)
Definition w_race : World :=
  world two_files
        (fresh_db [Calm; Calm; Calm; Concurrent [row_elsewhere]]).

(** The table does not exist and the database user may not create it: the
    server refuses the CREATE TABLE statement. *)
Definition w_no_schema : World :=
  world two_files (fresh_db [Calm; Fail InsufficientPrivilege]).

Definition w_calm : World := world two_files (fresh_db []).

(** The store already holds a row with the hash of [d/a]. *)
Definition w_known : World :=
  world two_files {| table := Some [row_elsewhere]; conns := 0;
                     txn_failed := false; script := [] |}.

Definition nl : string := String "010"%char "".

(** A directory [t] with a pattern file of two patterns, a file they
    exclude and a file they do not. *)
Definition with_patterns : FileSystem :=
  {| fs_file := files_of
                  [("t/.exclude_patterns",
                    regular ("tmp" ++ nl ++ nl ++ "  bak " ++ nl));
                   ("t/scratch.tmp", regular "X");
                   ("t/keep.txt", regular "Y")];
     fs_walk := fun top =>
                  if top =? "t"
                  then [("t", [], [".exclude_patterns"; "scratch.tmp";
                                   "keep.txt"])]
                  else [] |}.

Definition w_patterns : World := world with_patterns (fresh_db []).

(** A directory [b] whose pattern file has a line that is no regular
    expression. *)
Definition with_bad_pattern : FileSystem :=
  {| fs_file := files_of
                  [("b/.exclude_patterns", regular ("tmp" ++ nl ++ "(" ++ nl));
                   ("b/scratch.tmp", regular "X")];
     fs_walk := fun top =>
                  if top =? "b"
                  then [("b", [], [".exclude_patterns"; "scratch.tmp"])]
                  else [] |}.

Definition w_bad_pattern : World := world with_bad_pattern (fresh_db []).

(** A directory [u] with a file that cannot be opened. *)
Definition locked (content : string) : File :=
  {| stat_ok := true; open_ok := false;
     data := list_byte_of_string content; bad_from := None |}.

Definition one_locked : FileSystem :=
  {| fs_file := files_of [("u/locked", locked "X"); ("u/ok", regular "Y")];
     fs_walk := fun top => if top =? "u" then [("u", [], ["locked"; "ok"])]
                           else [] |}.

Definition w_locked : World := world one_locked (fresh_db []).

(** A directory [g] whose entry [ghost] is a dangling symbolic link: the
    walk lists it, [stat] does not find it. *)
Definition dangling : FileSystem :=
  {| fs_file := files_of [("g/real", regular "Y")];
     fs_walk := fun top => if top =? "g" then [("g", [], ["ghost"; "real"])]
                           else [] |}.

Definition w_dangling : World := world dangling (fresh_db []).

(** The tree of the specification's scenario: a film, a copy of it with
    the same bytes, and a text. *)
Definition scenario : FileSystem :=
  {| fs_file := files_of
                  [("s/movies/a.mp4", regular "X");
                   ("s/backup/a_copy.mp4", regular "X");
                   ("s/docs/readme.txt", regular "Y")];
     fs_walk := fun top =>
                  if top =? "s"
                  then [("s", ["movies"; "backup"; "docs"], []);
                        ("s/movies", [], ["a.mp4"]);
                        ("s/backup", [], ["a_copy.mp4"]);
                        ("s/docs", [], ["readme.txt"])]
                  else [] |}.

Definition w_scenario : World := world scenario (fresh_db []).

(** The server cannot be reached. *)
Definition w_unreachable : World :=
  world two_files (fresh_db [Fail OperationalError]).

(** A directory [p] whose pattern file cannot be opened. *)
Definition sealed_patterns : FileSystem :=
  {| fs_file := files_of
                  [("p/.exclude_patterns", locked "tmp");
                   ("p/scratch.tmp", regular "X")];
     fs_walk := fun top =>
                  if top =? "p"
                  then [("p", [], [".exclude_patterns"; "scratch.tmp"])]
                  else [] |}.

Definition w_sealed : World := world sealed_patterns (fresh_db []).

(** A directory [q] with nothing to index: the pattern file, a file it
    excludes and a file that cannot be opened; and a server that refuses
    the CREATE TABLE statement. *)
Definition nothing_to_index : FileSystem :=
  {| fs_file := files_of
                  [("q/.exclude_patterns", regular ("tmp" ++ nl));
                   ("q/scratch.tmp", regular "X");
                   ("q/locked", locked "Y")];
     fs_walk := fun top =>
                  if top =? "q"
                  then [("q", [], [".exclude_patterns"; "scratch.tmp";
                                   "locked"])]
                  else [] |}.

Definition w_nothing : World :=
  world nothing_to_index (fresh_db [Calm; Fail InsufficientPrivilege]).

(** A directory [r] whose pattern file opens, and then fails on the first
    read. *)
Definition failing_read : FileSystem :=
  {| fs_file := files_of
                  [("r/.exclude_patterns",
                    {| stat_ok := true; open_ok := true;
                       data := list_byte_of_string ("tmp" ++ nl);
                       bad_from := Some 0%nat |})];
     fs_walk := fun top =>
                  if top =? "r" then [("r", [], [".exclude_patterns"])]
                  else [] |}.

Definition w_failing_read : World := world failing_read (fresh_db []).

(** The row the indexer makes for [d/b]. *)
Definition row_b : Row :=
  {| file_name := "b"; path := "d/b";
     md5_hash := "57cec4137b614c87cb4e24a3d003a3e0";
     file_size := 1; category := "other" |}.

End Sample.

(** * Properties *)

(** ** Substrings *)

Module StrFacts.

Lemma append_assoc (a b c : string) : (a ++ b) ++ c = a ++ (b ++ c).
Proof. induction a as [|x a IH]; simpl; [reflexivity | now rewrite IH]. Qed.

Lemma startswith_app (p b : string) : Str.startswith p (p ++ b) = true.
Proof.
  induction p as [|x p IH]; simpl; [reflexivity|].
  now rewrite Ascii.eqb_refl, IH.
Qed.

Lemma startswith_inv (p s : string) :
  Str.startswith p s = true -> exists b, s = p ++ b.
Proof.
  revert s; induction p as [|x p IH]; intros s Hs.
  - now exists s.
  - destruct s as [|y s]; simpl in Hs; [discriminate|].
    apply andb_true_iff in Hs as [Hxy Hps].
    apply Ascii.eqb_eq in Hxy; subst y.
    destruct (IH _ Hps) as [b ->]. now exists b.
Qed.

(** [needle in s] holds exactly when [s] splits around [needle]. *)
Lemma contains_iff (needle s : string) :
  Str.contains needle s = true <-> exists a b, s = a ++ needle ++ b.
Proof.
  split.
  - induction s as [|y s IH]; simpl; intros Hc.
    + rewrite orb_false_r in Hc.
      destruct (startswith_inv _ _ Hc) as [b Hb]. now exists "", b.
    + apply orb_true_iff in Hc as [Hc|Hc].
      * destruct (startswith_inv _ _ Hc) as [b Hb]. now exists "", b.
      * destruct (IH Hc) as (a & b & ->). now exists (String y a), b.
  - intros (a & b & ->).
    induction a as [|y a IH]; simpl.
    + assert (Hs := startswith_app needle b).
      destruct (needle ++ b); simpl in *; now rewrite Hs.
    + rewrite IH. apply orb_true_r.
Qed.

(** A substring of a substring is a substring. *)
Lemma contains_trans (a b s : string) :
  Str.contains a b = true -> Str.contains b s = true ->
  Str.contains a s = true.
Proof.
  rewrite !contains_iff.
  intros (x & y & ->) (u & v & ->).
  exists (u ++ x), (y ++ v). now rewrite !append_assoc.
Qed.

End StrFacts.

(** ** Running computations *)

Section Running.

Context `{Libraries}.

Lemma bind_ok {A B} (m : M A) (k : A -> M B) w a w1 :
  m w = (Ok a, w1) -> bind m k w = k a w1.
Proof. unfold bind; now intros ->. Qed.

Lemma bind_raise {A B} (m : M A) (k : A -> M B) w e w1 :
  m w = (Raise e, w1) -> bind m k w = (Raise e, w1).
Proof. unfold bind; now intros ->. Qed.

Lemma touch_nil w : touch [] [] w = w.
Proof. destruct w; unfold touch; simpl; now rewrite !app_nil_r. Qed.

Lemma touch_touch l1 t1 l2 t2 w :
  touch l2 t2 (touch l1 t1 w) = touch (l1 ++ l2)%list (t1 ++ t2)%list w.
Proof. unfold touch; simpl; now rewrite !app_assoc. Qed.

Lemma logger_run lv msg w : logger lv msg w = (Ok tt, touch [(lv, msg)] [] w).
Proof. unfold logger, touch; simpl; now rewrite app_nil_r. Qed.

Lemma emit_run e w : emit e w = (Ok tt, touch [] [e] w).
Proof. unfold emit, touch; simpl; now rewrite app_nil_r. Qed.

(** *** _detect_category computes a value and only logs *)

Lemma detect_category_run file_path file_extension :
  exists c l, forall w,
    _detect_category file_path file_extension w = (Ok c, touch l [] w).
Proof.
  unfold _detect_category.
  destruct (find _ categories) as [[c ks]|].
  - eexists c, _; intros w.
    erewrite bind_ok by apply logger_run.
    erewrite bind_ok by apply logger_run.
    unfold ret. now rewrite !touch_touch.
  - destruct (find _ extension_categories) as [[c ks]|].
    + eexists c, _; intros w.
      erewrite bind_ok by apply logger_run.
      erewrite bind_ok by apply logger_run.
      unfold ret. now rewrite !touch_touch.
    + eexists "other", _; intros w.
      erewrite bind_ok by apply logger_run.
      erewrite bind_ok by apply logger_run.
      unfold ret. now rewrite !touch_touch.
Qed.

(** The value when a keyword list matches the path: the first such
    category. *)
Lemma detect_category_keyword file_path file_extension c ks w :
  find (fun item => any_keyword_in file_path (snd item)) categories
  = Some (c, ks) ->
  fst (_detect_category file_path file_extension w) = Ok c.
Proof.
  intros Hf. unfold _detect_category. rewrite Hf.
  erewrite bind_ok by apply logger_run.
  erewrite bind_ok by apply logger_run. reflexivity.
Qed.

Lemma detect_category_extension file_path file_extension w :
  find (fun item => any_keyword_in file_path (snd item)) categories = None ->
  fst (_detect_category file_path file_extension w)
  = Ok match find (fun item => extension_in file_extension (snd item))
                  extension_categories with
       | Some (c, _) => c
       | None => "other"
       end.
Proof.
  intros Hf. unfold _detect_category. rewrite Hf.
  destruct (find _ extension_categories) as [[c ks]|];
    erewrite bind_ok by apply logger_run;
    erewrite bind_ok by apply logger_run; reflexivity.
Qed.

(** A path with "movies" in it has "movie" in it, and one with
    "audiobook" or "audiobooks" has "book". *)
Lemma movies_movie s :
  Str.contains "movies" s = true -> Str.contains "movie" s = true.
Proof. apply StrFacts.contains_trans. reflexivity. Qed.

Lemma audiobook_book file_path :
  any_keyword_in file_path ["audiobook"; "audiobooks"] = true ->
  any_keyword_in file_path ["book"; "books"] = true.
Proof.
  unfold any_keyword_in; simpl. rewrite !orb_false_r.
  intros Ha. apply orb_true_iff. left.
  apply orb_true_iff in Ha as [Ha|Ha];
    revert Ha; apply StrFacts.contains_trans; reflexivity.
Qed.

(** *** _should_exclude decides [excluded_by] and only logs *)

Lemma should_exclude_run file_path pats w :
  exists l, _should_exclude file_path pats w
            = (Ok (excluded_by pats file_path), touch l [] w).
Proof.
  induction pats as [|pat pats IH]; simpl.
  - exists []. unfold ret. now rewrite touch_nil.
  - destruct (re_search (pattern pat) file_path); simpl.
    + eexists. erewrite bind_ok by apply logger_run. reflexivity.
    + exact IH.
Qed.

(** *** os.path.getsize *)

Lemma getsize_run p w :
  os_path_getsize p w = (size_of (fs w) p, touch [] [EvGetsize p] w).
Proof.
  unfold os_path_getsize, size_of.
  erewrite bind_ok by apply emit_run.
  unfold bind, get_fs; simpl.
  destruct (fs_file (fs w) p) as [f|]; [|reflexivity].
  destruct (stat_ok f); reflexivity.
Qed.

(** *** Reading a file in chunks *)

Lemma skipn_length_firstn {A} (n : nat) (l : list A) :
  skipn (List.length (firstn n l)) l = skipn n l.
Proof.
  revert l; induction n as [|n IH]; intros [|x l]; simpl; auto.
Qed.

Lemma chunk_positive : (0 < CHUNK)%nat.
Proof. unfold CHUNK; lia. Qed.

Lemma firstn_nil_inv {A} (n : nat) (l : list A) :
  (0 < n)%nat -> firstn n l = [] -> l = [].
Proof. destruct n, l; simpl; intros; try lia; congruence. Qed.

Lemma read_chunks_S fuel f pos fed :
  read_chunks (S fuel) f pos fed
  = match f_read f pos CHUNK with
    | Raise e => Raise e
    | Ok [] => Ok fed
    | Ok chunk =>
        read_chunks fuel f (pos + List.length chunk)%nat (fed ++ chunk)%list
    end.
Proof. reflexivity. Qed.

(** With fuel above what is left of the file, the loop feeds the hash
    object the rest of the file, or fails when the device does. *)
Lemma read_chunks_spec (f : File) :
  forall fuel pos fed,
    (pos <= List.length (data f))%nat ->
    (List.length (data f) - pos < fuel)%nat ->
    read_chunks fuel f pos fed
    = match bad_from f with
      | Some b => if (List.length (data f) <=? b)%nat
                  then Ok (fed ++ skipn pos (data f))%list
                  else Raise OSError
      | None => Ok (fed ++ skipn pos (data f))%list
      end.
Proof.
  assert (Hn := chunk_positive).
  induction fuel as [|fuel IH]; intros pos fed Hpos Hfuel; [lia|].
  rewrite read_chunks_S.
  unfold f_read.
  set (rest := skipn pos (data f)).
  assert (Hrest : List.length rest = (List.length (data f) - pos)%nat)
    by (unfold rest; now rewrite length_skipn).
  set (chunk := firstn CHUNK rest).
  assert (Hlen : (List.length chunk <= List.length rest)%nat)
    by (unfold chunk; rewrite length_firstn; lia).
  assert (Hsplit : rest = (chunk ++ skipn (pos + List.length chunk)
                                          (data f))%list).
  { rewrite Nat.add_comm, <- skipn_skipn. fold rest. unfold chunk.
    rewrite skipn_length_firstn. symmetry. apply firstn_skipn. }
  assert (Hnil : chunk = [] -> rest = [])
    by (apply firstn_nil_inv; exact Hn).
  assert (Hcut : chunk <> [] ->
                 (fed ++ chunk ++ skipn (pos + List.length chunk) (data f))%list
                 = (fed ++ rest)%list) by (intros _; now rewrite <- Hsplit).
  assert (Hmore : chunk <> [] -> (0 < List.length chunk)%nat)
    by (destruct chunk; simpl; [congruence | lia]).
  clearbody rest chunk.
  destruct (bad_from f) as [b|] eqn:Hb.
  - destruct (Nat.ltb_spec b (pos + List.length chunk)) as [Hlt|Hge].
    + destruct (Nat.leb_spec (List.length (data f)) b); [lia|reflexivity].
    + destruct chunk as [|x chunk'].
      * rewrite (Hnil eq_refl) in *. simpl in *. rewrite app_nil_r.
        destruct (Nat.leb_spec (List.length (data f)) b); [reflexivity|lia].
      * specialize (Hmore ltac:(discriminate)).
        rewrite IH by lia.
        rewrite <- app_assoc, Hcut by discriminate. reflexivity.
  - destruct chunk as [|x chunk'].
    + now rewrite (Hnil eq_refl), app_nil_r.
    + specialize (Hmore ltac:(discriminate)).
      rewrite IH by lia.
      rewrite <- app_assoc, Hcut by discriminate. reflexivity.
Qed.

Lemma readlines_ok (f : File) :
  readable f = true ->
  f_readlines f
  = Ok (Str.splitlines_keepends (string_of_list_byte (data f))).
Proof.
  unfold readable, f_readlines, f_read. intros Hr.
  apply andb_true_iff in Hr as [_ Hr].
  rewrite skipn_O, firstn_all.
  destruct (bad_from f) as [b|]; [|reflexivity].
  apply Nat.leb_le in Hr.
  destruct (Nat.ltb_spec b (0 + List.length (data f))); [lia|reflexivity].
Qed.

(** *** open *)

Lemma open_file_run ev p w :
  open_file ev p w = (open_result (fs w) p, touch [] [ev] w).
Proof.
  unfold open_file, open_result.
  erewrite bind_ok by apply emit_run.
  unfold bind, get_fs; simpl.
  destruct (fs_file (fs w) p) as [f|]; [|reflexivity].
  destruct (open_ok f); reflexivity.
Qed.

(** *** _calculate_md5 never raises; it gives the digest of the file's
    bytes when the file can be read to its end, and [None] otherwise *)

Lemma calculate_md5_run file_path w :
  exists l, _calculate_md5 file_path w
            = (Ok (digest_of (fs w) file_path),
               touch l [EvOpenBinary file_path] w).
Proof.
  unfold _calculate_md5, digest_of, readable.
  erewrite bind_ok by apply logger_run.
  unfold try_except.
  set (w0 := touch _ [] w).
  assert (Hopen := open_file_run (EvOpenBinary file_path) file_path w0).
  unfold open_result in Hopen. change (fs w0) with (fs w) in Hopen.
  destruct (fs_file (fs w) file_path) as [f|].
  - destruct (open_ok f); cbn [andb].
    + erewrite bind_ok by exact Hopen.
      unfold bind, ret, lift.
      rewrite read_chunks_spec by lia.
      rewrite skipn_O. cbn [app].
      destruct (bad_from f) as [b|].
      * destruct (List.length (data f) <=? b)%nat.
        -- eexists. unfold w0. now rewrite touch_touch.
        -- eexists. unfold w0.
           rewrite logger_run, !touch_touch. reflexivity.
      * eexists. unfold w0. now rewrite touch_touch.
    + erewrite bind_raise by exact Hopen.
      eexists. unfold w0.
      erewrite bind_ok by apply logger_run.
      unfold ret. rewrite !touch_touch. reflexivity.
  - erewrite bind_raise by exact Hopen.
    eexists. unfold w0.
    erewrite bind_ok by apply logger_run.
    unfold ret. rewrite !touch_touch. reflexivity.
Qed.

(** *** _load_exclusion_patterns *)

Lemma compile_lines_world lines w : snd (compile_lines lines w) = w.
Proof.
  induction lines as [|line lines IH]; simpl; [reflexivity|].
  destruct (Str.strip line =? ""); [exact IH|].
  unfold bind, re_compile.
  destruct (re_valid (Str.strip line)); [|reflexivity].
  unfold ret at 1. cbv beta iota.
  destruct (compile_lines lines w) as [[ps|e] w1]; simpl in *; exact IH.
Qed.

Lemma compile_lines_valid lines w :
  (forall s, In s (filter (fun s => negb (s =? "")) (map Str.strip lines)) ->
             re_valid s = true) ->
  compile_lines lines w
  = (Ok (map (fun s => {| pattern := s |})
             (filter (fun s => negb (s =? "")) (map Str.strip lines))), w).
Proof.
  induction lines as [|line lines IH]; simpl; intros Hv; [reflexivity|].
  destruct (Str.strip line =? ""); simpl in *; [now apply IH|].
  unfold bind, re_compile.
  rewrite (Hv _ (or_introl eq_refl)).
  unfold ret at 1. cbv beta iota.
  rewrite IH by (intros s Hs; apply Hv; now right).
  reflexivity.
Qed.

Lemma compile_lines_invalid lines w :
  (exists s, In s (filter (fun s => negb (s =? "")) (map Str.strip lines))
             /\ re_valid s = false) ->
  compile_lines lines w = (Raise ReError, w).
Proof.
  induction lines as [|line lines IH]; simpl; intros (s & Hin & Hs);
    [destruct Hin|].
  destruct (Str.strip line =? ""); simpl in *; [apply IH; now exists s|].
  unfold bind, re_compile.
  destruct (re_valid (Str.strip line)) eqn:Hv; [|reflexivity].
  destruct Hin as [<-|Hin]; [congruence|].
  unfold ret at 1. cbv beta iota.
  rewrite IH by now exists s. reflexivity.
Qed.

Lemma exists_run p w :
  os_path_exists p w
  = (Ok match fs_file (fs w) p with Some f => stat_ok f | None => false end,
     touch [] [EvExists p] w).
Proof.
  unfold os_path_exists.
  erewrite bind_ok by apply emit_run. reflexivity.
Qed.

Lemma compile_lines_run lines :
  exists r, forall w, compile_lines lines w = (r, w).
Proof.
  induction lines as [|line lines [r IH]]; simpl.
  - now exists (Ok []).
  - destruct (Str.strip line =? ""); [now exists r|].
    unfold bind, re_compile.
    destruct (re_valid (Str.strip line)).
    + destruct r as [ps|e].
      * exists (Ok ({| pattern := Str.strip line |} :: ps)). intros w.
        unfold ret at 1. cbv beta iota. now rewrite IH.
      * exists (Raise e). intros w.
        unfold ret at 1. cbv beta iota. now rewrite IH.
    + now exists (Raise ReError).
Qed.

(** It never raises, touches nothing but the log and the trace, and its
    result depends on the files only. *)
Lemma load_exclusion_patterns_run fsys directory :
  exists pats, forall w, fs w = fsys ->
    exists l t,
      _load_exclusion_patterns directory w = (Ok pats, touch l t w)
      /\ Forall probes t.
Proof.
  unfold _load_exclusion_patterns.
  set (p := OsPath.join directory ".exclude_patterns").
  assert (Hdone : forall (pats : list Pattern) l t w e,
             Forall probes t ->
             exists l' t',
               (logger ERROR ("Error loading exclusion patterns: " ++ exn_str e);;
                ret pats) (touch l t w) = (Ok pats, touch l' t' w)
               /\ Forall probes t').
  { intros pats l t w e Ht. eexists _, t.
    erewrite bind_ok by apply logger_run.
    unfold ret. rewrite touch_touch, app_nil_r. now split. }
  assert (Hstart : forall w B (k : bool -> M B), fs w = fsys ->
             (logger DEBUG ("Loading exclusion patterns from " ++ directory);;
              found <- os_path_exists p;; k found) w
             = k match fs_file fsys p with
                 | Some f => stat_ok f
                 | None => false
                 end
                 (touch [(DEBUG, "Loading exclusion patterns from " ++ directory)]
                        [EvExists p] w)).
  { intros w B k <-.
    erewrite bind_ok by apply logger_run.
    erewrite bind_ok by apply exists_run.
    now rewrite touch_touch. }
  assert (Hp2 : Forall probes [EvExists p; EvOpenText p])
    by now repeat constructor.
  assert (Hopen : forall w l t, fs w = fsys ->
             open_file (EvOpenText p) p (touch l t w)
             = (open_result fsys p, touch l (t ++ [EvOpenText p]) w)).
  { intros w l t <-. rewrite open_file_run, touch_touch.
    now rewrite app_nil_r. }
  destruct (fs_file fsys p) as [f|] eqn:Hf.
  2:{ exists []. intros w Hw. rewrite (Hstart w _ _ Hw).
      eexists _, _. split; [reflexivity | now repeat constructor]. }
  destruct (stat_ok f).
  2:{ exists []. intros w Hw. rewrite (Hstart w _ _ Hw).
      eexists _, _. split; [reflexivity | now repeat constructor]. }
  unfold open_result in Hopen. rewrite Hf in Hopen.
  destruct (open_ok f).
  2:{ exists []. intros w Hw. rewrite (Hstart w _ _ Hw).
      unfold try_except.
      erewrite bind_raise by (apply Hopen; exact Hw).
      now apply Hdone. }
  destruct (f_readlines f) as [lines|e] eqn:Hlines.
  2:{ exists []. intros w Hw. rewrite (Hstart w _ _ Hw).
      unfold try_except.
      erewrite bind_ok by (apply Hopen; exact Hw).
      erewrite bind_ok by apply logger_run.
      unfold bind at 1, lift. rewrite Hlines. rewrite touch_touch.
      now apply Hdone. }
  destruct (compile_lines_run lines) as [[ps|e] Hc].
  - exists ps. intros w Hw. rewrite (Hstart w _ _ Hw).
    unfold try_except.
    erewrite bind_ok by (apply Hopen; exact Hw).
    erewrite bind_ok by apply logger_run.
    unfold bind at 1, lift. rewrite Hlines, Hc, touch_touch.
    eexists _, _. split; [reflexivity | exact Hp2].
  - exists []. intros w Hw. rewrite (Hstart w _ _ Hw).
    unfold try_except.
    erewrite bind_ok by (apply Hopen; exact Hw).
    erewrite bind_ok by apply logger_run.
    unfold bind at 1, lift. rewrite Hlines, Hc, touch_touch.
    now apply Hdone.
Qed.

(** *** The database calls *)

Lemma execute_run c s w :
  execute c s w
  = (fst (db_execute s (db w)),
     with_db (snd (db_execute s (db w))) (touch [] [EvExecute s] w)).
Proof.
  unfold execute. erewrite bind_ok by apply emit_run.
  unfold on_db, with_db; cbn [db fs log trace touch].
  now destruct (db_execute s (db w)).
Qed.

Lemma commit_run c w : commit c w = (Ok tt, touch [] [EvCommit] w).
Proof. apply emit_run. Qed.

Lemma take_turn_conns d : conns (snd (take_turn d)) = conns d.
Proof. unfold take_turn; now destruct (script d). Qed.

Lemma db_execute_conns s d : conns (snd (db_execute s d)) = conns d.
Proof.
  unfold db_execute.
  assert (Hc := take_turn_conns d).
  destruct (take_turn d) as [t d1]; simpl in Hc.
  destruct (txn_failed d1); [exact Hc|].
  destruct t; [| exact Hc |];
    destruct (run_stmt s (table d1)) as [[r|e] t']; exact Hc.
Qed.

(** *** Calls whose events all satisfy a given property *)

Section Keeps.

Variable P : Event -> Prop.

Lemma evolves_refl w : evolves P w w.
Proof.
  repeat split. exists []. split; [now rewrite app_nil_r | constructor].
Qed.

Lemma evolves_trans w1 w2 w3 :
  evolves P w1 w2 -> evolves P w2 w3 -> evolves P w1 w3.
Proof.
  intros (Hf1 & Hc1 & t1 & Ht1 & Hi1) (Hf2 & Hc2 & t2 & Ht2 & Hi2).
  repeat split; [congruence | congruence |].
  exists (t1 ++ t2)%list. split.
  - now rewrite Ht2, Ht1, app_assoc.
  - now apply Forall_app.
Qed.

Lemma evolves_touch l t w : Forall P t -> evolves P w (touch l t w).
Proof. intros Ht. repeat split. now exists t. Qed.

Lemma keeps_ret {A} (a : A) : keeps P (ret a).
Proof. intros w; apply evolves_refl. Qed.

Lemma keeps_raise {A} e : keeps P (@raise A e).
Proof. intros w; apply evolves_refl. Qed.

Lemma keeps_lift {A} (r : Res A) : keeps P (lift r).
Proof. intros w; apply evolves_refl. Qed.

(** The continuation matters only at the values the first part can
    return. *)
Lemma keeps_bind_at {A B} (m : M A) (k : A -> M B) :
  keeps P m ->
  (forall a, (exists w, fst (m w) = Ok a) -> keeps P (k a)) ->
  keeps P (bind m k).
Proof.
  intros Hm Hk w. unfold bind. specialize (Hm w).
  destruct (m w) as [[a|e] w1] eqn:Hmw; simpl in *; [|exact Hm].
  eapply evolves_trans; [exact Hm | apply Hk].
  exists w. now rewrite Hmw.
Qed.

Lemma keeps_bind {A B} (m : M A) (k : A -> M B) :
  keeps P m -> (forall a, keeps P (k a)) -> keeps P (bind m k).
Proof. intros Hm Hk. apply keeps_bind_at; auto. Qed.

Lemma keeps_try {A} (m : M A) (h : exn -> M A) :
  keeps P m -> (forall e, keeps P (h e)) -> keeps P (try_except m h).
Proof.
  intros Hm Hh w. unfold try_except. specialize (Hm w).
  destruct (m w) as [[a|e] w1]; simpl in *; [exact Hm|].
  eapply evolves_trans; [exact Hm | apply Hh].
Qed.

Lemma keeps_logger lv msg : keeps P (logger lv msg).
Proof. intros w. rewrite logger_run. apply evolves_touch. constructor. Qed.

Lemma keeps_emit e : P e -> keeps P (emit e).
Proof.
  intros He w. rewrite emit_run. apply evolves_touch. now repeat constructor.
Qed.

Lemma keeps_get_fs : keeps P get_fs.
Proof. intros w; apply evolves_refl. Qed.

Lemma keeps_execute c s : P (EvExecute s) -> keeps P (execute c s).
Proof.
  intros Hs w. rewrite execute_run. cbn [snd].
  repeat split.
  - cbn [with_db db conns]. apply db_execute_conns.
  - exists [EvExecute s]. split; [reflexivity | now repeat constructor].
Qed.

Lemma keeps_commit c : P EvCommit -> keeps P (commit c).
Proof. apply keeps_emit. Qed.

Ltac keeps_step :=
  first
    [ apply keeps_ret | apply keeps_raise | apply keeps_lift
    | apply keeps_logger | apply keeps_get_fs
    | apply keeps_execute; assumption
    | apply keeps_commit; assumption
    | apply keeps_emit; assumption
    | apply keeps_bind; [|intros ?]
    | apply keeps_try; [|intros ?]
    | match goal with
      | |- keeps _ (if ?b then _ else _) => destruct b
      | |- keeps _ (match ?x with _ => _ end) => destruct x
      end ].

Lemma keeps_should_exclude p pats : keeps P (_should_exclude p pats).
Proof. induction pats; simpl; repeat keeps_step. assumption. Qed.

Lemma keeps_getsize p : P (EvGetsize p) -> keeps P (os_path_getsize p).
Proof. intros Hp. unfold os_path_getsize. repeat keeps_step. Qed.

Lemma keeps_calculate_md5 p :
  P (EvOpenBinary p) -> keeps P (_calculate_md5 p).
Proof. intros Hp. unfold _calculate_md5, open_file. repeat keeps_step. Qed.

Lemma keeps_detect_category p e : keeps P (_detect_category p e).
Proof. unfold _detect_category. repeat keeps_step. Qed.

Lemma keeps_create_database c :
  P (EvExecute CreateTable) -> P EvCommit -> keeps P (_create_database c).
Proof. intros H1 H2. unfold _create_database. repeat keeps_step. Qed.

(** The events of one file: those of a file that is not excluded, besides
    lookups and commits. *)
Hypothesis P_select : forall h, P (EvExecute (SelectByHash h)).
Hypothesis P_commit : P EvCommit.

Lemma keeps_index_file root name pats c idx :
  (excluded_by pats (OsPath.join root name) = false ->
   forall e, concerns (OsPath.join root name) e -> P e) ->
  keeps P (index_file root name pats c idx).
Proof.
  intros HP. unfold index_file.
  destruct (name =? ".exclude_patterns"); [apply keeps_ret|].
  cbv zeta.
  apply keeps_bind_at; [apply keeps_should_exclude|].
  intros excluded [w Hw].
  destruct (should_exclude_run (OsPath.join root name) pats w) as [l Hl].
  rewrite Hl in Hw. injection Hw as <-.
  destruct (excluded_by pats (OsPath.join root name)); [apply keeps_ret|].
  specialize (HP eq_refl).
  apply keeps_bind; [apply keeps_getsize; now apply HP|].
  intros size.
  apply keeps_bind; [apply keeps_calculate_md5; now apply HP|].
  intros [h|]; [|repeat keeps_step].
  apply keeps_bind; [apply keeps_execute, P_select|].
  intros [r|]; [repeat keeps_step|].
  apply keeps_bind; [apply keeps_detect_category|].
  intros cat.
  apply keeps_bind; [apply keeps_execute, HP; reflexivity|].
  intros _. repeat keeps_step.
Qed.

Lemma keeps_index_files root files pats c :
  (forall name, In name files ->
     excluded_by pats (OsPath.join root name) = false ->
     forall e, concerns (OsPath.join root name) e -> P e) ->
  forall idx, keeps P (index_files root files pats c idx).
Proof.
  induction files as [|name files IH]; intros HP idx; simpl.
  - apply keeps_ret.
  - apply keeps_bind.
    + apply keeps_index_file. apply HP. now left.
    + intros. apply IH. intros n Hn. apply HP. now right.
Qed.

Lemma keeps_index_roots walk pats c :
  (forall root name, In (root, name) (visits walk) ->
     excluded_by pats (OsPath.join root name) = false ->
     forall e, concerns (OsPath.join root name) e -> P e) ->
  forall idx, keeps P (index_roots walk pats c idx).
Proof.
  induction walk as [|[[root dirs] files] walk IH]; intros HP idx; simpl.
  - apply keeps_ret.
  - apply keeps_bind.
    + apply keeps_index_files. intros n Hn. apply HP.
      unfold visits; simpl. apply in_or_app. left. now apply in_map.
    + intros. apply IH. intros r n Hn. apply HP.
      unfold visits; simpl. apply in_or_app. now right.
Qed.

End Keeps.

Lemma keeps_load_exclusion_patterns P directory :
  (forall e, probes e -> P e) ->
  keeps P (_load_exclusion_patterns directory).
Proof.
  intros HP w.
  destruct (load_exclusion_patterns_run (fs w) directory) as (pats & Hrun).
  destruct (Hrun w eq_refl) as (l & t & -> & Ht).
  apply evolves_touch. revert Ht. apply Forall_impl. exact HP.
Qed.

(** The walk neither opens nor closes the connection. *)
Lemma keeps_index_directory directory pats c :
  keeps inner (_index_directory directory pats c).
Proof.
  unfold _index_directory, os_walk.
  apply keeps_bind; [apply keeps_logger|]. intros _.
  apply keeps_bind.
  - apply keeps_bind; [now apply keeps_emit|]. intros _.
    apply keeps_bind; [apply keeps_get_fs | intros; apply keeps_ret].
  - intros walk. apply keeps_index_roots; try easy.
    all: intros root name _ _ [] Hc; simpl in *; easy.
Qed.

(** *** One file of the walk *)

Lemma touch_with_db l t d w : touch l t (with_db d w) = with_db d (touch l t w).
Proof. reflexivity. Qed.

Lemma with_db_with_db d1 d2 w : with_db d2 (with_db d1 w) = with_db d2 w.
Proof. reflexivity. Qed.

(** The pattern file and the excluded files: nothing but log lines. *)
Lemma index_file_excluded root name pats c idx w :
  (name =? ".exclude_patterns") = true
  \/ excluded_by pats (OsPath.join root name) = true ->
  exists l, index_file root name pats c idx w = (Ok idx, touch l [] w).
Proof.
  intros Hex. unfold index_file.
  destruct (name =? ".exclude_patterns").
  - exists []. unfold ret. now rewrite touch_nil.
  - destruct Hex as [Hex|Hex]; [discriminate|]. cbv zeta.
    destruct (should_exclude_run (OsPath.join root name) pats w) as [l Hl].
    erewrite bind_ok by exact Hl. rewrite Hex. now exists l.
Qed.

(** A file whose size cannot be taken: the exception escapes. *)
Lemma index_file_no_size root name pats c idx w e :
  (name =? ".exclude_patterns") = false ->
  excluded_by pats (OsPath.join root name) = false ->
  size_of (fs w) (OsPath.join root name) = Raise e ->
  exists l,
    index_file root name pats c idx w
    = (Raise e, touch l [EvGetsize (OsPath.join root name)] w).
Proof.
  intros Hn Hex Hsize. unfold index_file. rewrite Hn. cbv zeta.
  set (p := OsPath.join root name) in *.
  destruct (should_exclude_run p pats w) as [l Hl].
  erewrite bind_ok by exact Hl. rewrite Hex.
  erewrite bind_raise
    by (rewrite getsize_run; cbn [fs touch]; rewrite Hsize; reflexivity).
  rewrite touch_touch. now eexists.
Qed.

(** A file without a digest: skipped before any call to the database. *)
Lemma index_file_no_digest root name pats c idx w size :
  (name =? ".exclude_patterns") = false ->
  excluded_by pats (OsPath.join root name) = false ->
  size_of (fs w) (OsPath.join root name) = Ok size ->
  digest_of (fs w) (OsPath.join root name) = None ->
  exists l,
    index_file root name pats c idx w
    = (Ok idx, touch l [EvGetsize (OsPath.join root name);
                        EvOpenBinary (OsPath.join root name)] w).
Proof.
  intros Hn Hex Hsize Hdig. unfold index_file. rewrite Hn. cbv zeta.
  set (p := OsPath.join root name) in *.
  destruct (should_exclude_run p pats w) as [l1 Hl1].
  erewrite bind_ok by exact Hl1. rewrite Hex.
  erewrite bind_ok
    by (rewrite getsize_run; cbn [fs touch]; rewrite Hsize; reflexivity).
  rewrite touch_touch.
  destruct (calculate_md5_run p (touch (l1 ++ []) ([] ++ [EvGetsize p]) w))
    as [l2 Hl2].
  erewrite bind_ok by exact Hl2. cbn [fs touch]. rewrite Hdig.
  erewrite bind_ok by apply logger_run.
  unfold ret. rewrite !touch_touch. now eexists.
Qed.

(** A file with a digest: the lookup, then either nothing more or the
    insert and its commit. *)
Lemma index_file_digest root name pats c idx w size h :
  (name =? ".exclude_patterns") = false ->
  excluded_by pats (OsPath.join root name) = false ->
  size_of (fs w) (OsPath.join root name) = Ok size ->
  digest_of (fs w) (OsPath.join root name) = Some h ->
  let p := OsPath.join root name in
  let d1 := snd (db_execute (SelectByHash h) (db w)) in
  let seen := [EvGetsize p; EvOpenBinary p; EvExecute (SelectByHash h)] in
  exists cat l,
    forall entry, entry = entry_of root name size h cat ->
    let d2 := snd (db_execute (InsertRow entry) d1) in
    index_file root name pats c idx w
    = match fst (db_execute (SelectByHash h) (db w)) with
      | Raise e => (Raise e, with_db d1 (touch (fst l) seen w))
      | Ok (Some _) => (Ok idx, with_db d1 (touch (fst (snd l)) seen w))
      | Ok None =>
          match fst (db_execute (InsertRow entry) d1) with
          | Raise e =>
              (Raise e,
               with_db d2 (touch (fst (snd (snd l)))
                                 (seen ++ [EvExecute (InsertRow entry)]) w))
          | Ok _ =>
              (Ok (idx ++ [entry])%list,
               with_db d2 (touch (snd (snd (snd l)))
                                 (seen ++ [EvExecute (InsertRow entry);
                                           EvCommit]) w))
          end
      end.
Proof.
  intros Hn Hex Hsize Hdig p d1 seen.
  destruct (detect_category_run p (snd (OsPath.splitext name)))
    as (cat & lcat & Hcat).
  destruct (should_exclude_run p pats w) as [l1 Hl1].
  destruct (calculate_md5_run p (touch (l1 ++ []) ([] ++ [EvGetsize p]) w))
    as [l2 Hl2].
  exists cat. eexists (_, (_, (_, _))). intros entry ->.
  unfold index_file. rewrite Hn. cbv zeta. fold p.
  erewrite bind_ok by exact Hl1. fold p in Hex. rewrite Hex.
  erewrite bind_ok
    by (rewrite getsize_run; cbn [fs touch]; fold p in Hsize;
        rewrite Hsize; reflexivity).
  rewrite touch_touch.
  erewrite bind_ok by exact Hl2. cbn [fs touch]. fold p in Hdig.
  rewrite Hdig. rewrite touch_touch.
  unfold bind at 1. rewrite execute_run. cbn [db touch fst snd].
  fold d1.
  destruct (fst (db_execute (SelectByHash h) (db w))) as [[r|]|e].
  - erewrite bind_ok by apply logger_run.
    unfold ret. rewrite touch_with_db, !touch_touch. cbn [fst snd].
    reflexivity.
  - erewrite bind_ok by apply Hcat.
    unfold bind at 1. rewrite execute_run. cbn [db touch with_db fst snd].
    change (Build_Row name p h size cat)
      with (entry_of root name size h cat).
    destruct (fst (db_execute (InsertRow (entry_of root name size h cat)) d1))
      as [r|e].
    + erewrite bind_ok by apply commit_run.
      erewrite bind_ok by apply logger_run.
      unfold ret. cbn [fst snd].
      rewrite !touch_with_db, !touch_touch. cbn [with_db fs db log trace touch].
      rewrite <- !app_assoc. reflexivity.
    + cbn [fst snd].
      rewrite !touch_with_db, !touch_touch. cbn [with_db fs db log trace touch].
      rewrite <- !app_assoc. reflexivity.
  - cbn [fst snd]. rewrite !touch_touch. reflexivity.
Qed.

(** *** The phases of [indexer] *)

Lemma connect_run w :
  connect w
  = (match fst (db_connect (db w)) with
     | Ok _ => Ok connection_object
     | Raise e => Raise e
     end,
     with_db (snd (db_connect (db w))) (touch [] [EvConnect] w)).
Proof.
  unfold connect. erewrite bind_ok by apply emit_run.
  unfold bind, on_db, with_db, ret; cbn [db fs log trace touch].
  now destruct (db_connect (db w)) as [[[]|e] d].
Qed.

Lemma close_run c w :
  close c w = (Ok tt, with_db (db_close (db w)) (touch [] [EvClose] w)).
Proof.
  unfold close. erewrite bind_ok by apply emit_run. reflexivity.
Qed.

(** When the connection cannot be opened, the run ends there. *)
Lemma indexer_not_connected directory w e :
  fst (db_connect (db w)) = Raise e ->
  exists w3,
    indexer directory w = (Ok tt, w3)
    /\ fs w3 = fs w
    /\ db w3 = snd (db_connect (db w))
    /\ trace w3 = (trace w ++ [EvConnect])%list.
Proof.
  intros Hc. unfold indexer.
  erewrite bind_ok by apply logger_run.
  unfold bind at 1, try_except.
  erewrite bind_raise
    by (rewrite connect_run; cbn [db touch]; rewrite Hc; reflexivity).
  erewrite bind_ok by apply logger_run.
  unfold ret. eexists. split; [reflexivity|].
  cbn. now rewrite !app_nil_r.
Qed.

(** When it is opened, the run is [indexing], then the closing. *)
Lemma indexer_connected directory w :
  fst (db_connect (db w)) = Ok tt ->
  exists wc,
    fs wc = fs w
    /\ db wc = snd (db_connect (db w))
    /\ trace wc = (trace w ++ [EvConnect])%list
    /\ match indexing directory connection_object wc with
       | (Ok file_index, w2) =>
           exists w3,
             indexer directory w = (Ok tt, w3)
             /\ fs w3 = fs w2
             /\ db w3 = db_close (db w2)
             /\ trace w3 = (trace w2 ++ [EvClose])%list
       | (Raise e, w2) => indexer directory w = (Raise e, w2)
       end.
Proof.
  intros Hc.
  set (wc := touch [(INFO, "Connected to the database successfully.")] []
               (with_db (snd (db_connect (db w)))
                  (touch [] [EvConnect]
                     (touch [(DEBUG, "Starting indexing for directory "
                                     ++ directory)] [] w)))).
  assert (Hrun : indexer directory w
                 = match indexing directory connection_object wc with
                   | (Ok file_index, w2) =>
                       (Ok tt,
                        touch [(DEBUG, "Database connection closed.")] []
                          (with_db (db_close (db w2))
                             (touch [(INFO, "Indexing complete. "
                                            ++ Str.of_nat
                                                 (List.length file_index)
                                            ++ " files indexed.")]
                                    [EvClose] w2)))
                   | (Raise e, w2) => (Raise e, w2)
                   end).
  { unfold indexer.
    erewrite bind_ok by apply logger_run.
    unfold bind at 1, try_except.
    erewrite bind_ok
      by (rewrite connect_run; cbn [db touch]; rewrite Hc; reflexivity).
    erewrite bind_ok by apply logger_run.
    unfold ret at 1. cbv beta iota. fold wc.
    unfold indexing, bind.
    destruct (_create_database connection_object wc) as [[[]|e] w1];
      [|reflexivity].
    destruct (_load_exclusion_patterns directory w1) as [[pats|e] w2];
      [|reflexivity].
    destruct (_index_directory directory pats connection_object w2)
      as [[file_index|e] w3]; [|reflexivity].
    rewrite logger_run, close_run, logger_run.
    now rewrite touch_touch. }
  exists wc. repeat split.
  - cbn. now rewrite !app_nil_r.
  - rewrite Hrun.
    destruct (indexing directory connection_object wc)
      as [[file_index|e] w2]; [|reflexivity].
    eexists. split; [reflexivity|].
    cbn. now rewrite !app_nil_r.
Qed.

Lemma keeps_indexing directory c : keeps inner (indexing directory c).
Proof.
  unfold indexing.
  apply keeps_bind; [now apply keeps_create_database|]. intros _.
  apply keeps_bind.
  - apply keeps_load_exclusion_patterns. now intros [].
  - intros pats. apply keeps_index_directory.
Qed.

Lemma db_connect_conns d :
  fst (db_connect d) = Ok tt -> conns (snd (db_connect d)) = S (conns d).
Proof.
  unfold db_connect.
  assert (Hc := take_turn_conns d).
  destruct (take_turn d) as [[| |] d1]; simpl in *; congruence.
Qed.

Lemma db_connect_fail_conns d e :
  fst (db_connect d) = Raise e -> conns (snd (db_connect d)) = conns d.
Proof.
  unfold db_connect.
  assert (Hc := take_turn_conns d).
  destruct (take_turn d) as [[| |] d1]; simpl in *; congruence.
Qed.

(** *** From what the functions return to the notions above *)

Lemma not_excluded pats p :
  (forall pat, In pat pats -> re_search (pattern pat) p = false) ->
  excluded_by pats p = false.
Proof.
  intros Hno. unfold excluded_by. apply not_true_iff_false. intros He.
  apply existsb_exists in He as (pat & Hin & Hm).
  now rewrite (Hno pat Hin) in Hm.
Qed.

Lemma excluded_by_some pats p pat :
  In pat pats -> re_search (pattern pat) p = true -> excluded_by pats p = true.
Proof. intros Hin Hm. apply existsb_exists. now exists pat. Qed.

Lemma getsize_value p w r :
  fst (os_path_getsize p w) = r -> size_of (fs w) p = r.
Proof. now rewrite getsize_run. Qed.

Lemma calculate_md5_value p w x :
  fst (_calculate_md5 p w) = Ok x -> digest_of (fs w) p = x.
Proof.
  destruct (calculate_md5_run p w) as [l ->]. cbn [fst]. congruence.
Qed.

Lemma load_value directory w w' pats :
  fs w' = fs w ->
  fst (_load_exclusion_patterns directory w) = Ok pats ->
  exists l t, _load_exclusion_patterns directory w' = (Ok pats, touch l t w')
              /\ Forall probes t.
Proof.
  intros Hfs Hl.
  destruct (load_exclusion_patterns_run (fs w) directory) as (pats0 & Hrun).
  destruct (Hrun w eq_refl) as (l & t & Hw & _).
  rewrite Hw in Hl. injection Hl as <-.
  now apply Hrun.
Qed.

(** *** A run spares the files its patterns exclude *)

Lemma concerns_one p q e : concerns p e -> concerns q e -> p = q.
Proof.
  destruct e as [q0|q0|q0|q0|q0| |[|h|r]| |]; simpl; intros; try easy;
    congruence.
Qed.

Lemma indexing_spares directory c w pats :
  fst (_load_exclusion_patterns directory w) = Ok pats ->
  evolves (spares pats) w (snd (indexing directory c w)).
Proof.
  intros Hl. unfold indexing, bind.
  assert (Hk1 := keeps_create_database (spares pats) c).
  specialize (Hk1 ltac:(now intros ?) ltac:(now intros ?) w).
  destruct (_create_database c w) as [[[]|e] w1]; cbn [snd] in *;
    [|exact Hk1].
  destruct (load_value directory w w1 pats (proj1 Hk1) Hl)
    as (l & t & Hw1 & Ht).
  rewrite Hw1. cbv beta iota.
  apply (evolves_trans _ w w1); [exact Hk1|].
  apply (evolves_trans _ w1 (touch l t w1)).
  { apply evolves_touch.
    revert Ht. apply Forall_impl. now intros [] Hp q Hq. }
  generalize (touch l t w1) as w2. intros w2.
  unfold _index_directory, os_walk.
  erewrite bind_ok by apply logger_run.
  unfold bind at 1.
  erewrite bind_ok by apply emit_run. unfold bind at 1, get_fs, ret.
  rewrite touch_touch.
  eapply evolves_trans.
  2:{ apply keeps_index_roots; try now intros ?.
      intros root name _ Hex e He q Hq.
      now rewrite <- (concerns_one _ _ _ He Hq). }
  apply evolves_touch.
  repeat constructor. now intros q Hq.
Qed.

End Running.

(** ** The categorizer *)

Section Categorizer.

Context `{Libraries}.

(** C6.  [_detect_category] is a function of its two arguments only: in any
    two worlds it returns the same category, and it changes nothing of the
    world but the log.  A path whose lower-case form contains "movies" is
    categorized "movie", whatever the extension. *)
Theorem categorize_pure_movies_first (file_path file_extension : string)
        (w1 w2 : World) :
  fst (_detect_category file_path file_extension w1)
  = fst (_detect_category file_path file_extension w2)
  /\ (exists c l, _detect_category file_path file_extension w1
                  = (Ok c, touch l [] w1))
  /\ (Str.contains "movies" (Str.lower file_path) = true ->
      fst (_detect_category file_path file_extension w1) = Ok "movie").
Proof.
  destruct (detect_category_run file_path file_extension) as (c & l & Hrun).
  split; [now rewrite !Hrun|].
  split; [now exists c, l|].
  intros Hm. apply movies_movie in Hm.
  apply detect_category_keyword with (ks := ["movie"; "movies"]).
  unfold categories; cbn [find snd].
  unfold any_keyword_in at 1; cbn [existsb].
  now rewrite Hm.
Qed.

(** C7.  When no keyword of any category occurs in the lower-case path, the
    extension ".mp3" gives "audio" and the extension ".unknownext" gives
    "other". *)
Theorem mp3_audio_unknownext_other (file_path : string) (w : World) :
  (forall c ks k, In (c, ks) categories -> In k ks ->
                  Str.contains k (Str.lower file_path) = false) ->
  fst (_detect_category file_path ".mp3" w) = Ok "audio"
  /\ fst (_detect_category file_path ".unknownext" w) = Ok "other".
Proof.
  intros Hno.
  assert (Hf : find (fun item => any_keyword_in file_path (snd item))
                    categories = None).
  { destruct (find _ categories) as [[c ks]|] eqn:Hf; [|reflexivity].
    apply find_some in Hf as [Hin He]. simpl in He.
    apply existsb_exists in He as (k & Hk & Hc).
    now rewrite (Hno c ks k Hin Hk) in Hc. }
  split; rewrite (detect_category_extension _ _ _ Hf); reflexivity.
Qed.

(** C10.  No input is categorized "audiobook": "book" comes before
    "audiobook" in the dict, and a path that has "audiobook" in it has
    "book" in it. *)
Theorem never_audiobook (file_path file_extension : string) (w : World) :
  fst (_detect_category file_path file_extension w) <> Ok "audiobook".
Proof.
  destruct (find (fun item => any_keyword_in file_path (snd item)) categories)
    as [[c ks]|] eqn:Hf.
  - rewrite (detect_category_keyword _ _ _ _ _ Hf).
    unfold categories in Hf; cbn [find snd] in Hf.
    destruct (any_keyword_in file_path ["movie"; "movies"]);
      [injection Hf as <- _; discriminate|].
    destruct (any_keyword_in file_path ["tv"; "show"; "shows"; "series"]);
      [injection Hf as <- _; discriminate|].
    destruct (any_keyword_in file_path ["book"; "books"]) eqn:Hb;
      [injection Hf as <- _; discriminate|].
    destruct (any_keyword_in file_path ["audiobook"; "audiobooks"]) eqn:Ha;
      [|discriminate].
    apply audiobook_book in Ha. congruence.
  - rewrite (detect_category_extension _ _ _ Hf).
    unfold extension_categories; cbn [find snd].
    repeat match goal with
           | |- context [if ?b then _ else _] => destruct b
           end; discriminate.
Qed.

End Categorizer.

(** ** The exclusion patterns *)

Section Patterns.

Context `{Libraries}.

(** C8.  Loading the patterns never raises and leaves the files and the
    database as they are.  Without a [.exclude_patterns] file in the
    directory the result is the empty list.  With a file of ASCII text
    that can be read, whose stripped non-blank lines are all valid regular
    expressions, the result has one compiled pattern for each of these
    lines, in order.  When one of the lines of such a file is not a valid
    regular expression, [re.compile] raises on it, the exception is caught
    and the result is the empty list. *)
Theorem load_patterns_missing_or_compiled (directory : string) (w : World) :
  (exists pats w1, _load_exclusion_patterns directory w = (Ok pats, w1)
                   /\ fs w1 = fs w /\ db w1 = db w)
  /\ (fs_file (fs w) (OsPath.join directory ".exclude_patterns") = None ->
      fst (_load_exclusion_patterns directory w) = Ok [])
  /\ (forall f,
        fs_file (fs w) (OsPath.join directory ".exclude_patterns") = Some f ->
        stat_ok f = true -> readable f = true ->
        isascii (data f) = true ->
        (forall s, In s (pattern_lines (string_of_list_byte (data f))) ->
                   re_valid s = true) ->
        fst (_load_exclusion_patterns directory w)
        = Ok (map (fun s => {| pattern := s |})
                  (pattern_lines (string_of_list_byte (data f)))))
  /\ (forall f,
        fs_file (fs w) (OsPath.join directory ".exclude_patterns") = Some f ->
        stat_ok f = true -> readable f = true ->
        isascii (data f) = true ->
        (exists s, In s (pattern_lines (string_of_list_byte (data f)))
                   /\ re_valid s = false) ->
        fst (_load_exclusion_patterns directory w) = Ok []).
Proof.
  assert (Hread : forall f,
            fs_file (fs w) (OsPath.join directory ".exclude_patterns")
            = Some f ->
            stat_ok f = true -> readable f = true ->
            exists w0,
              _load_exclusion_patterns directory w
              = try_except
                  (compile_lines
                     (Str.splitlines_keepends (string_of_list_byte (data f))))
                  (fun e =>
                     logger ERROR ("Error loading exclusion patterns: "
                                   ++ exn_str e);;
                     ret []) w0).
  { intros f Hf Hstat Hread. unfold _load_exclusion_patterns.
    erewrite bind_ok by apply logger_run.
    erewrite bind_ok by apply exists_run.
    cbn [fs touch]. rewrite Hf, Hstat.
    unfold try_except.
    set (p := OsPath.join directory ".exclude_patterns") in *.
    set (w0 := touch _ _ (touch _ _ w)).
    assert (Hopen := open_file_run (EvOpenText p) p w0).
    unfold open_result in Hopen. change (fs w0) with (fs w) in Hopen.
    rewrite Hf in Hopen.
    assert (Ho : open_ok f = true)
      by (unfold readable in Hread; now apply andb_true_iff in Hread).
    rewrite Ho in Hopen.
    erewrite bind_ok by exact Hopen.
    erewrite bind_ok by apply logger_run.
    unfold bind, lift. rewrite (readlines_ok f Hread).
    now eexists. }
  split; [|split; [|split]].
  - destruct (load_exclusion_patterns_run (fs w) directory) as (pats & Hrun).
    destruct (Hrun w eq_refl) as (l & t & Hw & _).
    exists pats, (touch l t w). now rewrite Hw.
  - intros Hnone. unfold _load_exclusion_patterns.
    erewrite bind_ok by apply logger_run.
    erewrite bind_ok by apply exists_run.
    cbn [fs touch]. now rewrite Hnone.
  - intros f Hf Hstat Hr _ Hvalid.
    destruct (Hread f Hf Hstat Hr) as [w0 ->].
    unfold try_except.
    now rewrite compile_lines_valid by exact Hvalid.
  - intros f Hf Hstat Hr _ Hinvalid.
    destruct (Hread f Hf Hstat Hr) as [w0 ->].
    unfold try_except.
    rewrite compile_lines_invalid by exact Hinvalid.
    erewrite bind_ok by apply logger_run. reflexivity.
Qed.

End Patterns.

(** ** One file of the walk *)

Section PerFile.

Context `{Libraries}.

(** C4.  The loop body does nothing for a file named [.exclude_patterns]
    and for a file whose path one of the patterns matches: it hands the
    index back, the database is as before and no call has left the process
    (no size taken, no file opened, no statement executed).  And over a
    whole run, no event concerns a path that one of the loaded patterns
    matches: its size is not taken, it is not opened for hashing, no row is
    inserted for it. *)
Theorem excluded_file_untouched :
  (forall root file_name pats c idx w,
      (file_name = ".exclude_patterns"
       \/ exists pat, In pat pats
                      /\ re_search (pattern pat) (OsPath.join root file_name)
                         = true) ->
      exists w1,
        index_file root file_name pats c idx w = (Ok idx, w1)
        /\ fs w1 = fs w /\ db w1 = db w /\ trace w1 = trace w)
  /\ (forall directory w pats,
        fst (_load_exclusion_patterns directory w) = Ok pats ->
        exists t,
          trace (snd (indexer directory w)) = (trace w ++ t)%list
          /\ forall p pat e,
               In pat pats -> re_search (pattern pat) p = true ->
               In e t -> ~ concerns p e).
Proof.
  split.
  - intros root file_name pats c idx w Hex.
    destruct (index_file_excluded root file_name pats c idx w) as [l Hl].
    { destruct Hex as [->|(pat & Hin & Hm)]; [now left|right].
      eapply excluded_by_some; eauto. }
    exists (touch l [] w). rewrite Hl. cbn. now rewrite app_nil_r.
  - intros directory w pats Hl.
    assert (Hspared' : forall t, Forall (spares pats) t ->
              forall p pat e, In pat pats -> re_search (pattern pat) p = true ->
                              In e t -> ~ concerns p e).
    { intros t Ht p pat e Hin Hm He Hc.
      rewrite Forall_forall in Ht.
      assert (Hf := Ht e He p Hc).
      now rewrite (excluded_by_some pats p pat Hin Hm) in Hf. }
    destruct (fst (db_connect (db w))) as [[]|e] eqn:Hc.
    + destruct (indexer_connected directory w Hc)
        as (wc & Hfs & Hdb & Htr & Hrun).
      assert (Hlc : fst (_load_exclusion_patterns directory wc) = Ok pats).
      { destruct (load_value directory w wc pats Hfs Hl) as (l & t & -> & _).
        reflexivity. }
      assert (Hev := indexing_spares directory connection_object wc pats Hlc).
      destruct (indexing directory connection_object wc)
        as [[file_index|e] w2]; cbn [snd] in Hev;
        destruct Hev as (_ & _ & t & Ht & HP).
      * destruct Hrun as (w3 & -> & _ & _ & Htr3). cbn [snd].
        exists ([EvConnect] ++ t ++ [EvClose])%list. split.
        { rewrite Htr3, Ht, Htr. now rewrite <- !app_assoc. }
        apply Hspared'.
        apply Forall_app; split; [now repeat constructor|].
        apply Forall_app; split; [exact HP | now repeat constructor].
      * rewrite Hrun. cbn [snd].
        exists ([EvConnect] ++ t)%list. split.
        { rewrite Ht, Htr. now rewrite <- !app_assoc. }
        apply Hspared'.
        apply Forall_app; split; [now repeat constructor | exact HP].
    + destruct (indexer_not_connected directory w e Hc)
        as (w3 & -> & _ & _ & Htr3). cbn [snd].
      exists [EvConnect]. split; [exact Htr3|].
      apply Hspared'. now repeat constructor.
Qed.

(** C5.  A file that reaches the hashing and whose hash cannot be computed
    is skipped: the loop body returns the index as it was, the database is
    untouched (no lookup, no insert: the only calls are the size query and
    the opening of the file), and the loop goes on with the remaining
    files. *)
Theorem hash_failure_skips_file (root file_name : string)
        (rest : list string) (pats : list Pattern) (c : Connection)
        (idx : list Row) (w : World) :
  file_name <> ".exclude_patterns" ->
  (forall pat, In pat pats ->
               re_search (pattern pat) (OsPath.join root file_name) = false) ->
  (exists size, fst (os_path_getsize (OsPath.join root file_name) w)
                = Ok size) ->
  fst (_calculate_md5 (OsPath.join root file_name) w) = Ok None ->
  exists w1,
    index_file root file_name pats c idx w = (Ok idx, w1)
    /\ fs w1 = fs w
    /\ db w1 = db w
    /\ trace w1 = (trace w ++ [EvGetsize (OsPath.join root file_name);
                               EvOpenBinary (OsPath.join root file_name)])%list
    /\ index_files root (file_name :: rest) pats c idx w
       = index_files root rest pats c idx w1.
Proof.
  intros Hn Hex [size Hsize] Hmd5.
  apply String.eqb_neq in Hn. apply not_excluded in Hex.
  apply getsize_value in Hsize. apply calculate_md5_value in Hmd5.
  destruct (index_file_no_digest root file_name pats c idx w size
              Hn Hex Hsize Hmd5) as [l Hl].
  exists (touch l [EvGetsize (OsPath.join root file_name);
                   EvOpenBinary (OsPath.join root file_name)] w).
  repeat split; try exact Hl.
  cbn [index_files]. now erewrite bind_ok by exact Hl.
Qed.

(** C1 (as amended).  A file that reaches the hashing and either has no
    computable hash, or has a hash that the lookup finds in the store, is
    skipped: the loop body returns normally with the index as it was, makes
    no insert, and the loop goes on with the remaining files. *)
Theorem per_file_skips_continue_walk (root file_name : string)
        (rest : list string) (pats : list Pattern) (c : Connection)
        (idx : list Row) (w : World) :
  file_name <> ".exclude_patterns" ->
  (forall pat, In pat pats ->
               re_search (pattern pat) (OsPath.join root file_name) = false) ->
  (exists size, fst (os_path_getsize (OsPath.join root file_name) w)
                = Ok size) ->
  (fst (_calculate_md5 (OsPath.join root file_name) w) = Ok None
   \/ exists h r,
        fst (_calculate_md5 (OsPath.join root file_name) w) = Ok (Some h)
        /\ fst (execute c (SelectByHash h) w) = Ok (Some r)) ->
  exists w1 t,
    index_file root file_name pats c idx w = (Ok idx, w1)
    /\ trace w1 = (trace w ++ t)%list
    /\ (forall r, ~ In (EvExecute (InsertRow r)) t)
    /\ index_files root (file_name :: rest) pats c idx w
       = index_files root rest pats c idx w1.
Proof.
  intros Hn Hex [size Hsize] Hcases.
  apply String.eqb_neq in Hn. apply not_excluded in Hex.
  apply getsize_value in Hsize.
  destruct Hcases as [Hmd5|(h & r & Hmd5 & Hfound)];
    apply calculate_md5_value in Hmd5.
  - destruct (index_file_no_digest root file_name pats c idx w size
                Hn Hex Hsize Hmd5) as [l Hl].
    eexists _, _. split; [exact Hl|]. split; [reflexivity|]. split.
    + intros r [Hr|[Hr|[]]]; discriminate.
    + cbn [index_files]. now erewrite bind_ok by exact Hl.
  - destruct (index_file_digest root file_name pats c idx w size h
                Hn Hex Hsize Hmd5) as (cat & l & Hl).
    specialize (Hl _ eq_refl). cbv zeta in Hl.
    rewrite execute_run in Hfound. cbn [fst] in Hfound.
    rewrite Hfound in Hl.
    eexists _, _. split; [exact Hl|]. split; [reflexivity|]. split.
    + intros r0 [Hr|[Hr|[Hr|[]]]]; discriminate.
    + cbn [index_files]. now erewrite bind_ok by exact Hl.
Qed.

End PerFile.

(** ** The connection *)

Section TheConnection.

Context `{Libraries}.

(** C9 (as amended).  When [indexer] returns normally, the process has as
    many open connections as before.  If the connection was opened, the
    calls of the run are: the connect, calls that neither open nor close a
    connection, and the close as the last call.  If it could not be opened,
    the connect is the only call. *)
Theorem normal_exit_closes_connection_once (directory : string)
        (w w1 : World) :
  indexer directory w = (Ok tt, w1) ->
  conns (db w1) = conns (db w)
  /\ match fst (db_connect (db w)) with
     | Ok _ => exists t, trace w1 = (trace w ++ [EvConnect] ++ t
                                     ++ [EvClose])%list
                         /\ Forall inner t
     | Raise _ => trace w1 = (trace w ++ [EvConnect])%list
     end.
Proof.
  intros Hrun.
  destruct (fst (db_connect (db w))) as [[]|e] eqn:Hc.
  - destruct (indexer_connected directory w Hc)
      as (wc & Hfs & Hdb & Htr & Hbody).
    assert (Hev := keeps_indexing directory connection_object wc).
    destruct (indexing directory connection_object wc)
      as [[file_index|e] w2]; cbn [snd] in Hev.
    + destruct Hbody as (w3 & Hrun3 & _ & Hdb3 & Htr3).
      rewrite Hrun in Hrun3. injection Hrun3 as <-.
      destruct Hev as (_ & Hconns & t & Ht & Hin).
      split.
      * rewrite Hdb3. unfold db_close; cbn [conns].
        rewrite Hconns, Hdb, (db_connect_conns _ Hc). reflexivity.
      * exists t. split; [|exact Hin].
        rewrite Htr3, Ht, Htr. now rewrite <- !app_assoc.
    + rewrite Hrun in Hbody. discriminate.
  - destruct (indexer_not_connected directory w e Hc)
      as (w3 & Hrun3 & _ & Hdb3 & Htr3).
    rewrite Hrun in Hrun3. injection Hrun3 as <-.
    split; [|exact Htr3].
    rewrite Hdb3. now apply db_connect_fail_conns with e.
Qed.

End TheConnection.

(** ** Deduplication *)

Section Deduplication.

Context `{Libraries}.

(** *** [first_encountered] *)

Lemma seen_hash_app h s1 s2 :
  seen_hash h (s1 ++ s2)%list = seen_hash h s1 || seen_hash h s2.
Proof. apply existsb_app. Qed.

Lemma seen_hash_last h seen : seen_hash h (seen ++ [h])%list = true.
Proof.
  rewrite seen_hash_app. unfold seen_hash at 2; simpl.
  rewrite String.eqb_refl. apply orb_true_r.
Qed.

Lemma has_hash_seen h rows : has_hash h rows = seen_hash h (map md5_hash rows).
Proof.
  unfold has_hash, seen_hash.
  induction rows as [|r rows IH]; simpl; [reflexivity|].
  now rewrite IH, String.eqb_sym.
Qed.

Lemma find_hash_none h rows :
  find_hash h rows = None -> has_hash h rows = false.
Proof.
  unfold find_hash, has_hash.
  induction rows as [|r rows IH]; simpl; [reflexivity|].
  destruct (md5_hash r =? h); [discriminate | exact IH].
Qed.

Lemma find_hash_some h rows r :
  find_hash h rows = Some r -> has_hash h rows = true.
Proof.
  unfold find_hash, has_hash.
  induction rows as [|r0 rows IH]; simpl; [discriminate|].
  destruct (md5_hash r0 =? h); [reflexivity | exact IH].
Qed.

(** The digests kept are new to the store... *)
Lemma first_encountered_fresh cs :
  forall seen h, In h (map snd (first_encountered seen cs)) ->
                 seen_hash h seen = false.
Proof.
  induction cs as [|[p0 h0] cs IH]; intros seen h; simpl; [easy|].
  destruct (seen_hash h0 seen) eqn:Hs; [apply IH|].
  simpl. intros [<-|Hin]; [exact Hs|].
  apply IH in Hin. rewrite seen_hash_app in Hin.
  now apply orb_false_iff in Hin.
Qed.

(** ... and pairwise distinct ... *)
Lemma first_encountered_nodup cs :
  forall seen, NoDup (map snd (first_encountered seen cs)).
Proof.
  induction cs as [|[p0 h0] cs IH]; intros seen; simpl; [constructor|].
  destruct (seen_hash h0 seen); [apply IH|].
  simpl. constructor; [|apply IH].
  intros Hin. apply first_encountered_fresh in Hin.
  now rewrite seen_hash_last in Hin.
Qed.

(** ... and afterwards the digest of every candidate is in the store. *)
Lemma first_encountered_covers cs :
  forall seen p h, In (p, h) cs ->
    seen_hash h (seen ++ map snd (first_encountered seen cs))%list = true.
Proof.
  induction cs as [|[p0 h0] cs IH]; intros seen p h; simpl; [easy|].
  destruct (seen_hash h0 seen) eqn:Hs.
  - intros [Heq|Hin]; [|now apply IH with p].
    injection Heq as _ <-. rewrite seen_hash_app, Hs. reflexivity.
  - simpl.
    set (kept := map snd (first_encountered (seen ++ [h0]) cs)).
    replace (seen ++ h0 :: kept)%list with ((seen ++ [h0]) ++ kept)%list
      by now rewrite <- app_assoc.
    subst kept.
    intros [Heq|Hin]; [|now apply IH with p].
    injection Heq as _ <-.
    now rewrite seen_hash_app, seen_hash_last.
Qed.

(** A digest kept belongs to the first candidate that has it. *)
Lemma first_encountered_first cs :
  forall seen p h, In (p, h) (first_encountered seen cs) ->
    exists cs1 cs2, cs = (cs1 ++ (p, h) :: cs2)%list
                    /\ ~ In h (map snd cs1).
Proof.
  induction cs as [|[p0 h0] cs IH]; intros seen p h; simpl; [easy|].
  assert (Hlater : forall seen', seen_hash h0 seen' = true ->
            In (p, h) (first_encountered seen' cs) ->
            exists cs1 cs2, ((p0, h0) :: cs = cs1 ++ (p, h) :: cs2)%list
                            /\ ~ In h (map snd cs1)).
  { intros seen' Hs0 Hin.
    assert (Hfresh : seen_hash h seen' = false).
    { apply first_encountered_fresh with cs.
      now apply (in_map snd) in Hin. }
    destruct (IH _ _ _ Hin) as (cs1 & cs2 & -> & Hno).
    exists ((p0, h0) :: cs1), cs2. split; [reflexivity|].
    simpl. intros [->|Hin']; [congruence | now apply Hno]. }
  destruct (seen_hash h0 seen) eqn:Hs; [now apply Hlater|].
  simpl. intros [Heq|Hin].
  - injection Heq as -> ->. now exists [], cs.
  - apply Hlater with (seen ++ [h0])%list; [apply seen_hash_last | exact Hin].
Qed.

Lemma first_encountered_all_seen cs :
  forall seen, (forall p h, In (p, h) cs -> seen_hash h seen = true) ->
               first_encountered seen cs = [].
Proof.
  induction cs as [|[p0 h0] cs IH]; intros seen Hall; simpl; [reflexivity|].
  rewrite (Hall p0 h0) by now left.
  apply IH. intros p h Hin. apply (Hall p h). now right.
Qed.

(** *** The database when nothing interferes *)

Lemma with_table_same d : with_table (table d) d = d.
Proof. now destruct d. Qed.

Lemma db_execute_quiet s d :
  script d = [] -> txn_failed d = false ->
  db_execute s d
  = match run_stmt s (table d) with
    | (Ok r, t') => (Ok r, with_table t' d)
    | (Raise e, _) => (Raise e, fail_txn d)
    end.
Proof.
  intros Hs Hf. unfold db_execute, take_turn. now rewrite Hs, Hf.
Qed.

Lemma db_connect_quiet d :
  script d = [] ->
  db_connect d
  = (Ok tt, {| table := table d; conns := S (conns d); txn_failed := false;
               script := [] |}).
Proof.
  intros Hs. unfold db_connect, take_turn. rewrite Hs. cbn. now rewrite Hs.
Qed.

(** *** The loops *)

Lemma index_visits_app vs1 vs2 pats c :
  forall idx w,
    index_visits (vs1 ++ vs2) pats c idx w
    = bind (index_visits vs1 pats c idx)
           (fun idx1 => index_visits vs2 pats c idx1) w.
Proof.
  induction vs1 as [|[root name] vs1 IH]; intros idx w; [reflexivity|].
  simpl. unfold bind.
  destruct (index_file root name pats c idx w) as [[idx1|e] w1];
    [|reflexivity].
  rewrite IH. reflexivity.
Qed.

Lemma index_files_visits root files pats c :
  forall idx w,
    index_files root files pats c idx w
    = index_visits (map (pair root) files) pats c idx w.
Proof.
  induction files as [|name files IH]; intros idx w; [reflexivity|].
  simpl. unfold bind.
  destruct (index_file root name pats c idx w) as [[idx1|e] w1];
    [apply IH | reflexivity].
Qed.

(** The two nested loops are the one loop over the visits. *)
Lemma index_roots_visits walk pats c :
  forall idx w,
    index_roots walk pats c idx w = index_visits (visits walk) pats c idx w.
Proof.
  induction walk as [|[[root dirs] files] walk IH]; intros idx w;
    [reflexivity|].
  unfold visits; simpl. fold (visits walk).
  rewrite index_visits_app. unfold bind.
  rewrite index_files_visits.
  destruct (index_visits (map (pair root) files) pats c idx w)
    as [[idx1|e] w1]; [apply IH | reflexivity].
Qed.

Lemma select_quiet h d T :
  script d = [] -> txn_failed d = false -> table d = Some T ->
  db_execute (SelectByHash h) d = (Ok (find_hash h T), d).
Proof.
  intros Hs Hf Ht. rewrite db_execute_quiet by assumption.
  rewrite Ht. cbn [run_stmt]. now rewrite <- Ht, with_table_same.
Qed.

Lemma insert_quiet r d T :
  script d = [] -> txn_failed d = false -> table d = Some T ->
  has_hash (md5_hash r) T = false ->
  db_execute (InsertRow r) d = (Ok None, with_table (Some (T ++ [r])%list) d).
Proof.
  intros Hs Hf Ht Hh. rewrite db_execute_quiet by assumption.
  rewrite Ht. cbn [run_stmt]. now rewrite Hh.
Qed.

(** With no fault and no other client, the loop over the visits inserts
    exactly the rows [first_encountered] keeps, and raises only where
    [stat] fails. *)
Lemma index_visits_quiet pats c vs :
  forall idx w T,
    script (db w) = [] -> txn_failed (db w) = false ->
    table (db w) = Some T ->
    exists new w1,
      index_visits vs pats c idx w
      = (outcome (snd (candidates (fs w) pats vs)) (idx ++ new)%list, w1)
      /\ fs w1 = fs w
      /\ script (db w1) = [] /\ txn_failed (db w1) = false
      /\ table (db w1) = Some (T ++ new)%list
      /\ map key new
         = first_encountered (map md5_hash T)
                             (fst (candidates (fs w) pats vs)).
Proof.
  induction vs as [|[root name] vs IH]; intros idx w T Hs Hf Ht.
  { cbn. exists [], w. rewrite !app_nil_r. now repeat split. }
  cbn [candidates index_visits].
  set (p := OsPath.join root name).
  destruct (name =? ".exclude_patterns") eqn:Hn; cbn [orb].
  { destruct (index_file_excluded root name pats c idx w (or_introl Hn))
      as [l Hl].
    erewrite bind_ok by exact Hl.
    exact (IH idx (touch l [] w) T Hs Hf Ht). }
  destruct (excluded_by pats p) eqn:Hex.
  { destruct (index_file_excluded root name pats c idx w (or_intror Hex))
      as [l Hl].
    erewrite bind_ok by exact Hl.
    exact (IH idx (touch l [] w) T Hs Hf Ht). }
  destruct (size_of (fs w) p) as [size|e] eqn:Hsize.
  2:{ destruct (index_file_no_size root name pats c idx w e Hn Hex Hsize)
        as [l Hl].
      erewrite bind_raise by exact Hl.
      eexists [], _. rewrite !app_nil_r. now repeat split. }
  destruct (digest_of (fs w) p) as [h|] eqn:Hdig.
  2:{ destruct (index_file_no_digest root name pats c idx w size
                  Hn Hex Hsize Hdig) as [l Hl].
      erewrite bind_ok by exact Hl.
      specialize (IH idx (touch l [EvGetsize p; EvOpenBinary p] w) T Hs Hf Ht).
      cbn [fs touch] in IH.
      destruct (candidates (fs w) pats vs) as [cs stop]; exact IH. }
  destruct (index_file_digest root name pats c idx w size h
              Hn Hex Hsize Hdig) as (cat & l & Hl).
  specialize (Hl _ eq_refl). cbv zeta in Hl. fold p in Hl.
  rewrite (select_quiet h (db w) T Hs Hf Ht) in Hl. cbn [fst snd] in Hl.
  destruct (find_hash h T) as [r|] eqn:Hfind.
  - apply find_hash_some in Hfind.
    erewrite bind_ok by exact Hl.
    match type of Hl with _ = (_, ?w1) => specialize (IH idx w1 T Hs Hf Ht) end.
    cbn [fs touch with_db db] in IH.
    destruct (candidates (fs w) pats vs) as [cs stop]. cbn [fst snd] in *.
    cbn [first_encountered]. rewrite <- has_hash_seen, Hfind. exact IH.
  - apply find_hash_none in Hfind.
    set (entry := entry_of root name size h cat) in *.
    rewrite (insert_quiet entry (db w) T Hs Hf Ht Hfind) in Hl.
    cbn [fst snd] in Hl.
    erewrite bind_ok by exact Hl.
    match type of Hl with
      _ = (_, ?w1) =>
        specialize (IH (idx ++ [entry])%list w1 (T ++ [entry])%list Hs Hf
                       eq_refl)
    end.
    cbn [fs touch with_db db] in IH.
    destruct (candidates (fs w) pats vs) as [cs stop]. cbn [fst snd] in *.
    destruct IH as (new & w1 & Hrun & Hfs & Hs1 & Hf1 & Ht1 & Hkey).
    exists (entry :: new), w1.
    rewrite <- !app_assoc in *. cbn [app] in *.
    repeat split; try assumption.
    cbn [first_encountered map]. rewrite <- has_hash_seen, Hfind.
    rewrite map_app in Hkey. cbn [map] in Hkey.
    now rewrite Hkey.
Qed.

Lemma create_database_quiet c w :
  script (db w) = [] -> txn_failed (db w) = false ->
  exists l,
    _create_database c w
    = (Ok tt,
       with_db (with_table (Some (rows_of (table (db w)))) (db w))
               (touch l [EvExecute CreateTable; EvCommit] w)).
Proof.
  intros Hs Hf. unfold _create_database.
  erewrite bind_ok by apply logger_run.
  unfold try_except.
  erewrite bind_ok
    by (rewrite execute_run; cbn [db touch];
        rewrite (db_execute_quiet CreateTable (db w) Hs Hf); reflexivity).
  erewrite bind_ok by apply commit_run.
  rewrite logger_run.
  rewrite !touch_with_db, !touch_touch. now eexists.
Qed.

(** The whole of [indexing] when nothing interferes. *)
Lemma indexing_quiet directory c w pats :
  script (db w) = [] -> txn_failed (db w) = false ->
  fst (_load_exclusion_patterns directory w) = Ok pats ->
  exists new w1,
    indexing directory c w
    = (outcome (snd (candidates (fs w) pats
                                (visits (fs_walk (fs w) directory)))) new,
       w1)
    /\ fs w1 = fs w
    /\ script (db w1) = []
    /\ table (db w1) = Some (rows_of (table (db w)) ++ new)%list
    /\ map key new
       = first_encountered (map md5_hash (rows_of (table (db w))))
           (fst (candidates (fs w) pats (visits (fs_walk (fs w) directory)))).
Proof.
  intros Hs Hf Hload.
  assert (Hidx : exists l t,
             indexing directory c w
             = index_visits (visits (fs_walk (fs w) directory)) pats c []
                 (with_db (with_table (Some (rows_of (table (db w)))) (db w))
                          (touch l t w))).
  { unfold indexing.
    destruct (create_database_quiet c w Hs Hf) as [l0 Hcreate].
    erewrite bind_ok by exact Hcreate.
    set (w0 := with_db _ _).
    destruct (load_value directory w w0 pats eq_refl Hload)
      as (l1 & t1 & Hl1 & _).
    erewrite bind_ok by exact Hl1.
    unfold _index_directory, os_walk.
    erewrite bind_ok by apply logger_run.
    unfold bind at 1.
    erewrite bind_ok by apply emit_run.
    unfold bind at 1, get_fs, ret.
    rewrite index_roots_visits.
    subst w0. rewrite !touch_with_db, !touch_touch.
    now eexists _, _. }
  destruct Hidx as (l & t & ->).
  match goal with
  | |- context [index_visits _ _ _ _ ?w2] =>
      destruct (index_visits_quiet pats c
                  (visits (fs_walk (fs w) directory)) [] w2
                  (rows_of (table (db w))) Hs Hf eq_refl)
        as (new & w1 & Hrun & Hfs & Hs1 & _ & Ht1 & Hkey)
  end.
  cbn [fs db touch with_db with_table table app] in *.
  exists new, w1. repeat split; assumption.
Qed.

(** A whole run when nothing interferes. *)
Lemma indexer_quiet directory w pats :
  script (db w) = [] ->
  fst (_load_exclusion_patterns directory w) = Ok pats ->
  exists new w1,
    indexer directory w
    = (outcome (snd (candidates (fs w) pats
                                (visits (fs_walk (fs w) directory)))) tt,
       w1)
    /\ fs w1 = fs w
    /\ script (db w1) = []
    /\ table (db w1) = Some (rows_of (table (db w)) ++ new)%list
    /\ map key new
       = first_encountered (map md5_hash (rows_of (table (db w))))
           (fst (candidates (fs w) pats (visits (fs_walk (fs w) directory)))).
Proof.
  intros Hs Hload.
  assert (Hc : fst (db_connect (db w)) = Ok tt)
    by now rewrite db_connect_quiet.
  destruct (indexer_connected directory w Hc) as (wc & Hfs & Hdb & _ & Hbody).
  rewrite db_connect_quiet in Hdb by exact Hs. cbn [snd] in Hdb.
  assert (Hlc : fst (_load_exclusion_patterns directory wc) = Ok pats).
  { destruct (load_value directory w wc pats Hfs Hload) as (l & t & -> & _).
    reflexivity. }
  destruct (indexing_quiet directory connection_object wc pats
              ltac:(now rewrite Hdb) ltac:(now rewrite Hdb) Hlc)
    as (new & w2 & Hq & Hfs2 & Hs2 & Ht2 & Hkey).
  rewrite Hfs in Hq, Hkey.
  assert (Htc : table (db wc) = table (db w)) by now rewrite Hdb.
  rewrite Htc in Ht2, Hkey.
  rewrite Hq in Hbody. exists new.
  destruct (snd (candidates (fs w) pats (visits (fs_walk (fs w) directory))))
    as [e|]; cbn [outcome] in *.
  - exists w2. repeat split; try assumption; congruence.
  - destruct Hbody as (w3 & Hrun3 & Hfs3 & Hdb3 & _).
    exists w3. rewrite Hdb3. cbn [db_close script table].
    repeat split; try assumption; congruence.
Qed.

(** C2.  With no fault of the server and no other client during the runs,
    the rows a run adds to the store are those of the files that reached
    the lookup, each kept only if its digest was neither in the store
    before nor that of a file met earlier in the run.  So the new rows have
    pairwise distinct hashes, none of them in the store before, and each
    new row is that of the first file of the run with its digest; and a
    second run over the same files with the store the first run left ends
    as the first did and leaves the table as it is. *)
Theorem first_content_wins_and_rerun_inserts_nothing
        (directory : string) (w : World) (pats : list Pattern) :
  script (db w) = [] ->
  fst (_load_exclusion_patterns directory w) = Ok pats ->
  exists new,
    table (db (snd (indexer directory w)))
    = Some (rows_of (table (db w)) ++ new)%list
    /\ map key new
       = first_encountered
           (map md5_hash (rows_of (table (db w))))
           (fst (candidates (fs w) pats (visits (fs_walk (fs w) directory))))
    /\ NoDup (map md5_hash new)
    /\ (forall r, In r new ->
                  has_hash (md5_hash r) (rows_of (table (db w))) = false)
    /\ (forall r, In r new ->
          exists cs1 cs2,
            fst (candidates (fs w) pats (visits (fs_walk (fs w) directory)))
            = (cs1 ++ key r :: cs2)%list
            /\ ~ In (md5_hash r) (map snd cs1))
    /\ fst (indexer directory w)
       = outcome (snd (candidates (fs w) pats
                                  (visits (fs_walk (fs w) directory)))) tt
    /\ table (db (snd (indexer directory (snd (indexer directory w)))))
       = table (db (snd (indexer directory w)))
    /\ fst (indexer directory (snd (indexer directory w)))
       = fst (indexer directory w).
Proof.
  intros Hs Hload.
  destruct (indexer_quiet directory w pats Hs Hload)
    as (new & w1 & Hrun & Hfs1 & Hs1 & Ht1 & Hkey).
  rewrite Hrun. cbn [fst snd].
  assert (Hhashes : map md5_hash new
                    = map snd (first_encountered
                                 (map md5_hash (rows_of (table (db w))))
                                 (fst (candidates (fs w) pats
                                         (visits (fs_walk (fs w) directory)))))).
  { rewrite <- Hkey, map_map. reflexivity. }
  assert (Hload1 : fst (_load_exclusion_patterns directory w1) = Ok pats).
  { destruct (load_value directory w w1 pats Hfs1 Hload) as (l & t & -> & _).
    reflexivity. }
  destruct (indexer_quiet directory w1 pats Hs1 Hload1)
    as (new' & w2 & Hrun' & _ & _ & Ht2 & Hkey').
  rewrite Hrun'. cbn [fst snd]. rewrite Hfs1 in *.
  exists new.
  split; [exact Ht1|]. split; [exact Hkey|].
  split; [rewrite Hhashes; apply first_encountered_nodup|].
  split.
  { intros r Hr. rewrite has_hash_seen.
    eapply first_encountered_fresh.
    rewrite <- Hhashes. now apply in_map. }
  split.
  { intros r Hr. apply (in_map key) in Hr. rewrite Hkey in Hr.
    exact (first_encountered_first _ _ _ _ Hr). }
  split; [reflexivity|]. split; [|reflexivity].
  rewrite Ht2, Ht1. cbn [rows_of].
  rewrite first_encountered_all_seen in Hkey'.
  - destruct new'; [now rewrite app_nil_r | discriminate].
  - intros p h Hin. rewrite Ht1. cbn [rows_of]. rewrite map_app, Hhashes.
    now apply first_encountered_covers with p.
Qed.

End Deduplication.

(** ** Further properties of the functions *)

Section Further.

Context `{Libraries}.

(** *** What the database calls do to the table *)

Lemma grows_refl d : grows d d.
Proof. exists []. now rewrite app_nil_r. Qed.

Lemma grows_trans d1 d2 d3 : grows d1 d2 -> grows d2 d3 -> grows d1 d3.
Proof.
  intros [x1 H1] [x2 H2]. exists (x1 ++ x2)%list.
  now rewrite H2, H1, app_assoc.
Qed.

Lemma add_all_unique_appends new :
  forall rows, exists extra,
    fold_left add_unique new rows = (rows ++ extra)%list.
Proof.
  induction new as [|r new IH]; intros rows; simpl.
  - exists []. now rewrite app_nil_r.
  - unfold add_unique at 2. destruct (has_hash (md5_hash r) rows).
    + apply IH.
    + destruct (IH (rows ++ [r])%list) as [extra ->].
      exists ([r] ++ extra)%list. now rewrite app_assoc.
Qed.

Lemma take_turn_grows d : grows d (snd (take_turn d)).
Proof.
  unfold take_turn, grows.
  destruct (script d) as [|[|e|rows] rest]; cbn [snd table others_commit];
    try (exists []; now rewrite app_nil_r).
  cbn [rows_of]. apply add_all_unique_appends.
Qed.

Lemma run_stmt_grows s t :
  exists extra, rows_of (snd (run_stmt s t)) = (rows_of t ++ extra)%list.
Proof.
  destruct s as [|h|r]; cbn [run_stmt].
  - exists []. cbn. now rewrite app_nil_r.
  - exists []. rewrite app_nil_r. now destruct t.
  - destruct t as [rows|]; [|exists []; now rewrite app_nil_r].
    destruct (has_hash (md5_hash r) rows); cbn.
    + exists []. now rewrite app_nil_r.
    + now exists [r].
Qed.

Lemma db_execute_grows s d : grows d (snd (db_execute s d)).
Proof.
  unfold db_execute. assert (Hg := take_turn_grows d).
  destruct (take_turn d) as [t d1]; cbn [snd] in Hg.
  destruct (txn_failed d1); [exact Hg|].
  assert (Hstmt : grows d
            (snd (match run_stmt s (table d1) with
                  | (Ok r, t') => (Ok r, with_table t' d1)
                  | (Raise e, _) => (Raise e, fail_txn d1)
                  end))).
  { destruct (run_stmt_grows s (table d1)) as [extra Hx].
    destruct (run_stmt s (table d1)) as [[r|e] t']; cbn [snd] in *;
      [|exact Hg].
    eapply grows_trans; [exact Hg|]. now exists extra. }
  destruct t; [exact Hstmt | exact Hg | exact Hstmt].
Qed.

(** A lookup that finds a row, and an insert that succeeds, leave the hash
    in the table. *)
Lemma select_found_has_hash h d r :
  fst (db_execute (SelectByHash h) d) = Ok (Some r) ->
  has_hash h (rows_of (table (snd (db_execute (SelectByHash h) d)))) = true.
Proof.
  unfold db_execute. destruct (take_turn d) as [t d1].
  destruct (txn_failed d1); [discriminate|].
  assert (Hstmt :
    fst (match run_stmt (SelectByHash h) (table d1) with
         | (Ok r, t') => (Ok r, with_table t' d1)
         | (Raise e, _) => (Raise e, fail_txn d1)
         end) = Ok (Some r) ->
    has_hash h
      (rows_of (table (snd (match run_stmt (SelectByHash h) (table d1) with
                            | (Ok r, t') => (Ok r, with_table t' d1)
                            | (Raise e, _) => (Raise e, fail_txn d1)
                            end)))) = true).
  { cbn [run_stmt]. destruct (table d1) as [rows|]; cbn; [|discriminate].
    intros Hf. injection Hf as Hf. now apply find_hash_some in Hf. }
  destruct t; [exact Hstmt | discriminate | exact Hstmt].
Qed.

Lemma insert_ok_in_table r d x :
  fst (db_execute (InsertRow r) d) = Ok x ->
  In r (rows_of (table (snd (db_execute (InsertRow r) d)))).
Proof.
  unfold db_execute. destruct (take_turn d) as [t d1].
  destruct (txn_failed d1); [discriminate|].
  assert (Hstmt :
    fst (match run_stmt (InsertRow r) (table d1) with
         | (Ok r, t') => (Ok r, with_table t' d1)
         | (Raise e, _) => (Raise e, fail_txn d1)
         end) = Ok x ->
    In r
      (rows_of (table (snd (match run_stmt (InsertRow r) (table d1) with
                            | (Ok r, t') => (Ok r, with_table t' d1)
                            | (Raise e, _) => (Raise e, fail_txn d1)
                            end))))).
  { cbn [run_stmt]. destruct (table d1) as [rows|]; cbn; [|discriminate].
    destruct (has_hash (md5_hash r) rows); cbn; [discriminate|].
    intros _. apply in_or_app. right. now left. }
  destruct t; [exact Hstmt | discriminate | exact Hstmt].
Qed.

Lemma in_has_hash r rows : In r rows -> has_hash (md5_hash r) rows = true.
Proof.
  intros Hin. apply existsb_exists. exists r.
  split; [exact Hin | apply String.eqb_refl].
Qed.

Lemma grows_in d d' r :
  grows d d' -> In r (rows_of (table d)) -> In r (rows_of (table d')).
Proof. intros [extra ->] Hin. apply in_or_app. now left. Qed.

(** *** Relations the loop over the files preserves *)

Section Lasting.

Variable R : World -> World -> Prop.
Hypothesis R_refl : forall w, R w w.
Hypothesis R_trans : forall w1 w2 w3, R w1 w2 -> R w2 w3 -> R w1 w3.
Hypothesis R_touch : forall l t w, R w (touch l t w).
Hypothesis R_execute : forall c s w, R w (snd (execute c s w)).

Lemma lasting_ret {A} (a : A) : lasting R (ret a).
Proof. intros w; apply R_refl. Qed.

Lemma lasting_bind {A B} (m : M A) (k : A -> M B) :
  lasting R m -> (forall a, lasting R (k a)) -> lasting R (bind m k).
Proof.
  intros Hm Hk w. unfold bind. specialize (Hm w).
  destruct (m w) as [[a|e] w1]; cbn [snd] in *; [|exact Hm].
  eapply R_trans; [exact Hm | apply Hk].
Qed.

Lemma lasting_logger lv msg : lasting R (logger lv msg).
Proof. intros w. rewrite logger_run. apply R_touch. Qed.

Lemma lasting_emit e : lasting R (emit e).
Proof. intros w. rewrite emit_run. apply R_touch. Qed.

Lemma lasting_should_exclude p pats : lasting R (_should_exclude p pats).
Proof.
  intros w. destruct (should_exclude_run p pats w) as [l ->]. apply R_touch.
Qed.

Lemma lasting_getsize p : lasting R (os_path_getsize p).
Proof. intros w. rewrite getsize_run. apply R_touch. Qed.

Lemma lasting_calculate_md5 p : lasting R (_calculate_md5 p).
Proof.
  intros w. destruct (calculate_md5_run p w) as [l ->]. apply R_touch.
Qed.

Lemma lasting_detect_category p e : lasting R (_detect_category p e).
Proof.
  intros w. destruct (detect_category_run p e) as (c & l & Hrun).
  rewrite Hrun. apply R_touch.
Qed.

Lemma lasting_index_file root name pats c idx :
  lasting R (index_file root name pats c idx).
Proof.
  unfold index_file.
  destruct (name =? ".exclude_patterns"); [apply lasting_ret|]. cbv zeta.
  apply lasting_bind; [apply lasting_should_exclude | intros excluded].
  destruct excluded; [apply lasting_ret|].
  apply lasting_bind; [apply lasting_getsize | intros size].
  apply lasting_bind; [apply lasting_calculate_md5 | intros [h|]].
  - apply lasting_bind; [intros w; apply R_execute | intros [r|]].
    + apply lasting_bind; [apply lasting_logger | intros _].
      apply lasting_ret.
    + apply lasting_bind; [apply lasting_detect_category | intros cat].
      apply lasting_bind; [intros w; apply R_execute | intros _].
      apply lasting_bind; [apply lasting_emit | intros _].
      apply lasting_bind; [apply lasting_logger | intros _].
      apply lasting_ret.
  - apply lasting_bind; [apply lasting_logger | intros _].
    apply lasting_ret.
Qed.

Lemma lasting_index_visits vs pats c :
  forall idx, lasting R (index_visits vs pats c idx).
Proof.
  induction vs as [|[root name] vs IH]; intros idx; simpl.
  - apply lasting_ret.
  - apply lasting_bind; [apply lasting_index_file | intros; apply IH].
Qed.

End Lasting.

(** *** _calculate_md5 *)

(** X1.  [_calculate_md5] never raises.  Reading in chunks of 4096 bytes, it
    returns the digest of the whole content of the file when the file can
    be opened and read to its end, and [None] when the file is missing,
    cannot be opened, or a read fails on the way.  It opens the file once
    and touches neither the files nor the database. *)
Theorem calculate_md5_whole_file (file_path : string) (w : World) :
  exists w1,
    _calculate_md5 file_path w
    = (Ok match fs_file (fs w) file_path with
          | Some f => if readable f then Some (md5_hexdigest (data f))
                      else None
          | None => None
          end, w1)
    /\ fs w1 = fs w /\ db w1 = db w
    /\ trace w1 = (trace w ++ [EvOpenBinary file_path])%list.
Proof.
  destruct (calculate_md5_run file_path w) as [l Hl].
  exists (touch l [EvOpenBinary file_path] w). now rewrite Hl.
Qed.

(** *** _detect_category *)

Lemma movie_keywords file_path :
  any_keyword_in file_path ["movie"; "movies"]
  = Str.contains "movie" (Str.lower file_path).
Proof.
  unfold any_keyword_in; cbn [existsb]. rewrite orb_false_r.
  destruct (Str.contains "movie" (Str.lower file_path)) eqn:Hm;
    [reflexivity|].
  destruct (Str.contains "movies" (Str.lower file_path)) eqn:Hs;
    [|reflexivity].
  apply movies_movie in Hs. congruence.
Qed.

Lemma tv_show_keywords file_path :
  any_keyword_in file_path ["tv"; "show"; "shows"; "series"]
  = Str.contains "tv" (Str.lower file_path)
    || Str.contains "show" (Str.lower file_path)
    || Str.contains "series" (Str.lower file_path).
Proof.
  unfold any_keyword_in; cbn [existsb]. rewrite orb_false_r.
  destruct (Str.contains "shows" (Str.lower file_path)) eqn:Hs.
  - assert (Hshow : Str.contains "show" (Str.lower file_path) = true).
    { revert Hs. apply StrFacts.contains_trans. reflexivity. }
    rewrite Hshow. now rewrite !orb_true_r.
  - now destruct (Str.contains "tv" (Str.lower file_path)),
                 (Str.contains "show" (Str.lower file_path)).
Qed.

Lemma book_keywords file_path :
  any_keyword_in file_path ["book"; "books"]
  = Str.contains "book" (Str.lower file_path).
Proof.
  unfold any_keyword_in; cbn [existsb]. rewrite orb_false_r.
  destruct (Str.contains "book" (Str.lower file_path)) eqn:Hm;
    [reflexivity|].
  destruct (Str.contains "books" (Str.lower file_path)) eqn:Hs;
    [|reflexivity].
  assert (Hb : Str.contains "book" (Str.lower file_path) = true).
  { revert Hs. apply StrFacts.contains_trans. reflexivity. }
  congruence.
Qed.

(** The keyword phase, with the keywords that another keyword covers left
    out. *)
Lemma keyword_phase file_path :
  find (fun item => any_keyword_in file_path (snd item)) categories
  = if Str.contains "movie" (Str.lower file_path)
    then Some ("movie", ["movie"; "movies"])
    else if Str.contains "tv" (Str.lower file_path)
            || Str.contains "show" (Str.lower file_path)
            || Str.contains "series" (Str.lower file_path)
    then Some ("tv show", ["tv"; "show"; "shows"; "series"])
    else if Str.contains "book" (Str.lower file_path)
    then Some ("book", ["book"; "books"])
    else None.
Proof.
  unfold categories; cbn [find snd].
  rewrite movie_keywords, tv_show_keywords, book_keywords.
  destruct (Str.contains "movie" (Str.lower file_path)); [reflexivity|].
  destruct (Str.contains "tv" (Str.lower file_path)
            || Str.contains "show" (Str.lower file_path)
            || Str.contains "series" (Str.lower file_path)); [reflexivity|].
  destruct (Str.contains "book" (Str.lower file_path)) eqn:Hb;
    [reflexivity|].
  destruct (any_keyword_in file_path ["audiobook"; "audiobooks"]) eqn:Ha;
    [|reflexivity].
  apply audiobook_book in Ha. rewrite book_keywords in Ha. congruence.
Qed.

(** X2.  The category is always one of nine labels: "movie", "tv show",
    "book", "audio", "video", "picture", "plaintext", "document" or
    "other".  The function never raises. *)
Theorem category_in_closed_set (file_path file_extension : string)
        (w : World) :
  exists c, fst (_detect_category file_path file_extension w) = Ok c
            /\ In c labels.
Proof.
  destruct (find (fun item => any_keyword_in file_path (snd item)) categories)
    as [[c ks]|] eqn:Hf.
  - exists c. split; [now apply detect_category_keyword with ks|].
    rewrite keyword_phase in Hf. unfold labels.
    repeat match type of Hf with
           | (if ?b then _ else _) = _ => destruct b
           end; try discriminate; injection Hf as <- _; simpl; tauto.
  - rewrite (detect_category_extension _ _ _ Hf).
    eexists. split; [reflexivity|].
    unfold extension_categories; cbn [find snd]. unfold labels.
    repeat match goal with
           | |- context [if ?b then _ else _] => destruct b
           end; simpl; tauto.
Qed.

(** X3.  The path decides before the extension, and the categories in the
    order of the dict: "movie" in the lower-case path gives "movie";
    otherwise "tv", "show" or "series" gives "tv show"; otherwise "book"
    gives "book" - whatever the extension is. *)
Theorem keyword_phase_precedence (file_path file_extension : string)
        (w : World) :
  (Str.contains "movie" (Str.lower file_path) = true ->
   fst (_detect_category file_path file_extension w) = Ok "movie")
  /\ (Str.contains "movie" (Str.lower file_path) = false ->
      Str.contains "tv" (Str.lower file_path)
      || Str.contains "show" (Str.lower file_path)
      || Str.contains "series" (Str.lower file_path) = true ->
      fst (_detect_category file_path file_extension w) = Ok "tv show")
  /\ (Str.contains "movie" (Str.lower file_path) = false ->
      Str.contains "tv" (Str.lower file_path)
      || Str.contains "show" (Str.lower file_path)
      || Str.contains "series" (Str.lower file_path) = false ->
      Str.contains "book" (Str.lower file_path) = true ->
      fst (_detect_category file_path file_extension w) = Ok "book").
Proof.
  assert (Hk := keyword_phase file_path).
  repeat split.
  - intros Hm. rewrite Hm in Hk. exact (detect_category_keyword _ _ _ _ _ Hk).
  - intros Hm Ht. rewrite Hm, Ht in Hk.
    exact (detect_category_keyword _ _ _ _ _ Hk).
  - intros Hm Ht Hb. rewrite Hm, Ht, Hb in Hk.
    exact (detect_category_keyword _ _ _ _ _ Hk).
Qed.

(** X4.  When no keyword occurs in the path, an extension that one of the
    five lists holds, in any letter case, gives the category of that list
    (no extension is in two lists), and an extension in none of them gives
    "other". *)
Theorem listed_extension_gives_its_category
        (file_path file_extension : string) (w : World) :
  (forall c ks k, In (c, ks) categories -> In k ks ->
                  Str.contains k (Str.lower file_path) = false) ->
  (forall c exts, In (c, exts) extension_categories ->
                  In (Str.lower file_extension) exts ->
                  fst (_detect_category file_path file_extension w) = Ok c)
  /\ ((forall c exts, In (c, exts) extension_categories ->
                      ~ In (Str.lower file_extension) exts) ->
      fst (_detect_category file_path file_extension w) = Ok "other").
Proof.
  intros Hno.
  assert (Hf : find (fun item => any_keyword_in file_path (snd item))
                    categories = None).
  { destruct (find _ categories) as [[c ks]|] eqn:Hf; [|reflexivity].
    apply find_some in Hf as [Hin He]. simpl in He.
    apply existsb_exists in He as (k & Hk & Hc).
    now rewrite (Hno c ks k Hin Hk) in Hc. }
  rewrite (detect_category_extension _ _ _ Hf).
  unfold extension_in. generalize (Str.lower file_extension) as x.
  intros x. split.
  - intros c exts Hc Hx.
    repeat (destruct Hc as [Hc|Hc];
            [injection Hc as <- <-;
             repeat (destruct Hx as [<-|Hx]; [reflexivity|]); destruct Hx|]).
    destruct Hc.
  - intros Hnone.
    destruct (find _ extension_categories) as [[c exts]|] eqn:Hx;
      [|reflexivity].
    apply find_some in Hx as [Hin He]. simpl in He.
    apply existsb_exists in He as (y & Hy & Heq).
    apply String.eqb_eq in Heq. subst y.
    now destruct (Hnone c exts Hin).
Qed.

(** *** _should_exclude *)

(** X5.  [_should_exclude] never raises and makes no call outside the
    process.  It returns [False] exactly when no pattern matches the path,
    and then logs nothing; it returns [True] at the first pattern of the
    list that matches, and logs that pattern. *)
Theorem should_exclude_first_match (file_path : string)
        (pats : list Pattern) (w : World) :
  exists b w1,
    _should_exclude file_path pats w = (Ok b, w1)
    /\ fs w1 = fs w /\ db w1 = db w /\ trace w1 = trace w
    /\ (b = false ->
        (forall pat, In pat pats ->
                     re_search (pattern pat) file_path = false)
        /\ w1 = w)
    /\ (b = true ->
        exists pre pat post,
          pats = (pre ++ pat :: post)%list
          /\ (forall q, In q pre -> re_search (pattern q) file_path = false)
          /\ re_search (pattern pat) file_path = true
          /\ log w1 = (log w ++ [(INFO, ("File " ++ file_path
                                         ++ " excluded by pattern "
                                         ++ pattern pat)%string)])%list).
Proof.
  induction pats as [|pat pats IH]; cbn [_should_exclude].
  - exists false, w. repeat split; try easy.
  - destruct (re_search (pattern pat) file_path) eqn:Hm.
    + eexists true, _. erewrite bind_ok by apply logger_run.
      split; [reflexivity|]. cbn [fs db trace log touch].
      rewrite app_nil_r. repeat split; try easy.
      intros _. exists [], pat, pats. repeat split; easy.
    + destruct IH as (b & w1 & Hrun & Hfs & Hdb & Htr & Hfalse & Htrue).
      exists b, w1. repeat split; try assumption.
      * intros q [<-|Hq]; [exact Hm | now apply Hfalse].
      * now apply Hfalse.
      * intros Hb. destruct (Htrue Hb) as (pre & q & post & -> & Hpre & Hq & Hlog).
        exists (pat :: pre), q, post. repeat split; try assumption.
        intros q0 [<-|Hq0]; [exact Hm | now apply Hpre].
Qed.

(** *** _load_exclusion_patterns *)

(** X6.  Loading the patterns looks at one path only, the file
    [.exclude_patterns] directly in the given directory: it asks whether it
    exists and, if so, opens it once; it makes no other call, never raises
    and leaves the database alone. *)
Theorem load_patterns_probes_one_file (directory : string) (w : World) :
  exists pats w1 t,
    _load_exclusion_patterns directory w = (Ok pats, w1)
    /\ fs w1 = fs w /\ db w1 = db w
    /\ trace w1 = (trace w ++ t)%list
    /\ (t = [EvExists (OsPath.join directory ".exclude_patterns")]
        \/ t = [EvExists (OsPath.join directory ".exclude_patterns");
                EvOpenText (OsPath.join directory ".exclude_patterns")]).
Proof.
  unfold _load_exclusion_patterns.
  set (p := OsPath.join directory ".exclude_patterns").
  erewrite bind_ok by apply logger_run.
  erewrite bind_ok by apply exists_run.
  rewrite touch_touch. cbn [fs touch app].
  assert (Hhandler : forall e l,
            exists pats w1 t,
              (logger ERROR ("Error loading exclusion patterns: " ++ exn_str e);;
               ret (@nil Pattern)) (touch l [EvExists p; EvOpenText p] w)
              = (Ok pats, w1)
              /\ fs w1 = fs w /\ db w1 = db w
              /\ trace w1 = (trace w ++ t)%list
              /\ (t = [EvExists p] \/ t = [EvExists p; EvOpenText p])).
  { intros e l. erewrite bind_ok by apply logger_run.
    unfold ret. rewrite touch_touch.
    eexists [], _, _. repeat split. now right. }
  destruct (match fs_file (fs w) p with Some f => stat_ok f | None => false end).
  2:{ eexists [], _, [EvExists p]. unfold ret. repeat split. now left. }
  unfold try_except.
  match goal with |- context [touch ?l [EvExists p] w] => set (l0 := l) end.
  assert (Hopen := open_file_run (EvOpenText p) p (touch l0 [EvExists p] w)).
  rewrite touch_touch in Hopen. cbn [app fs touch] in Hopen.
  destruct (open_result (fs w) p) as [f|e].
  - erewrite bind_ok by exact Hopen.
    erewrite bind_ok by apply logger_run. rewrite touch_touch.
    unfold bind at 1, lift.
    destruct (f_readlines f) as [lines|e]; [|rewrite app_nil_r; apply Hhandler].
    destruct (compile_lines_run lines) as [[ps|e] Hc]; rewrite Hc.
    + eexists ps, _, _. repeat split. now right.
    + rewrite app_nil_r. apply Hhandler.
  - erewrite bind_raise by exact Hopen. apply Hhandler.
Qed.

(** X7.  Whatever the body of the [try] raises once the pattern file is
    known to exist, the function catches it, logs that exception's text at
    level ERROR and returns the empty list.  When [open] raises, the log
    gains the DEBUG line and the ERROR line.  When [open] succeeds and
    [readlines] or [re.compile] raises, the INFO line "Exclusion patterns
    loaded from ..." has been logged already and stands before the ERROR
    line. *)
Theorem load_patterns_failure_swallowed (directory : string) (w : World)
        (e : exn) :
  fst (os_path_exists (OsPath.join directory ".exclude_patterns") w)
  = Ok true ->
  (fst (open_file (EvOpenText (OsPath.join directory ".exclude_patterns"))
                  (OsPath.join directory ".exclude_patterns") w)
   = Raise e ->
   exists w1,
     _load_exclusion_patterns directory w = (Ok [], w1)
     /\ log w1
        = (log w
           ++ [(DEBUG, ("Loading exclusion patterns from "
                        ++ directory)%string);
               (ERROR, ("Error loading exclusion patterns: "
                        ++ exn_str e)%string)])%list)
  /\ (forall f,
        fst (open_file (EvOpenText (OsPath.join directory ".exclude_patterns"))
                       (OsPath.join directory ".exclude_patterns") w)
        = Ok f ->
        (f_readlines f = Raise e
         \/ exists lines, f_readlines f = Ok lines
                          /\ fst (compile_lines lines w) = Raise e) ->
        exists w1,
          _load_exclusion_patterns directory w = (Ok [], w1)
          /\ log w1
             = (log w
                ++ [(DEBUG, ("Loading exclusion patterns from "
                             ++ directory)%string);
                    (INFO, ("Exclusion patterns loaded from "
                            ++ OsPath.join directory
                                           ".exclude_patterns")%string);
                    (ERROR, ("Error loading exclusion patterns: "
                             ++ exn_str e)%string)])%list).
Proof.
  set (p := OsPath.join directory ".exclude_patterns").
  intros Hex. rewrite exists_run in Hex. cbn [fst] in Hex.
  injection Hex as Hex.
  assert (Hstart : forall w0,
            fs w0 = fs w ->
            open_file (EvOpenText p) p w0
            = (fst (open_file (EvOpenText p) p w),
               touch [] [EvOpenText p] w0)).
  { intros w0 Hw0. rewrite !open_file_run. cbn [fst]. now rewrite Hw0. }
  assert (Hhandler : forall l t,
            (logger ERROR ("Error loading exclusion patterns: " ++ exn_str e);;
             ret (@nil Pattern)) (touch l t w)
            = (Ok [],
               touch (l ++ [(ERROR, "Error loading exclusion patterns: "
                                    ++ exn_str e)]) t w)).
  { intros l t. erewrite bind_ok by apply logger_run.
    unfold ret. now rewrite touch_touch, app_nil_r. }
  assert (Hload : _load_exclusion_patterns directory w
                  = try_except
                      (f <- open_file (EvOpenText p) p;;
                       logger INFO ("Exclusion patterns loaded from " ++ p);;
                       lines <- lift (f_readlines f);;
                       compile_lines lines)
                      (fun e0 =>
                         logger ERROR ("Error loading exclusion patterns: "
                                       ++ exn_str e0);;
                         ret [])
                      (touch [(DEBUG, "Loading exclusion patterns from "
                                      ++ directory)]
                             [EvExists p] w)).
  { unfold _load_exclusion_patterns. fold p.
    erewrite bind_ok by apply logger_run.
    erewrite bind_ok by apply exists_run.
    cbn [fs touch]. rewrite Hex. now rewrite touch_touch. }
  split.
  - intros Hopen. rewrite Hload. unfold try_except.
    erewrite bind_raise
      by (rewrite Hstart by reflexivity; rewrite Hopen; reflexivity).
    rewrite touch_touch, Hhandler.
    eexists. split; [reflexivity|].
    cbn [log touch]. now rewrite <- app_assoc.
  - intros f Hopen Hbody. rewrite Hload. unfold try_except.
    erewrite bind_ok
      by (rewrite Hstart by reflexivity; rewrite Hopen; reflexivity).
    erewrite bind_ok by apply logger_run.
    rewrite !touch_touch.
    unfold bind at 1, lift.
    destruct Hbody as [Hr|(lines & Hr & Hc)]; rewrite Hr.
    + rewrite Hhandler. eexists. split; [reflexivity|].
      cbn [log touch]. now rewrite <- !app_assoc.
    + destruct (compile_lines_run lines) as [r Hrun].
      rewrite Hrun in Hc. cbn [fst] in Hc. subst r.
      rewrite Hrun, Hhandler. eexists. split; [reflexivity|].
      cbn [log touch]. now rewrite <- !app_assoc.
Qed.

(** *** _create_database *)

Lemma create_database_ok c w :
  exists w1, _create_database c w = (Ok tt, w1).
Proof.
  unfold _create_database.
  erewrite bind_ok by apply logger_run.
  unfold try_except.
  match goal with |- context [match ?m with _ => _ end] =>
    destruct m as [[[]|e] w1] end.
  - now eexists.
  - rewrite logger_run. now eexists.
Qed.

(** X8.  [_create_database] never raises, whatever the server answers: a
    failure is caught and logged.  When the statement goes through, the
    table exists afterwards with the rows it had (none if it was missing),
    and calling the function again changes nothing. *)
Theorem create_database_keeps_rows (c : Connection) (w : World) :
  (exists w1, _create_database c w = (Ok tt, w1)
              /\ fs w1 = fs w /\ conns (db w1) = conns (db w))
  /\ (script (db w) = [] -> txn_failed (db w) = false ->
      table (db (snd (_create_database c w)))
      = Some (rows_of (table (db w)))
      /\ table (db (snd (_create_database c (snd (_create_database c w)))))
         = table (db (snd (_create_database c w)))).
Proof.
  split.
  - destruct (create_database_ok c w) as [w1 Hrun].
    exists w1. split; [exact Hrun|].
    assert (Hk := keeps_create_database (fun _ => True) c I I w).
    rewrite Hrun in Hk. destruct Hk as (Hfs & Hconns & _). now split.
  - intros Hs Hf.
    destruct (create_database_quiet c w Hs Hf) as [l Hrun].
    rewrite Hrun. cbn [snd]. split; [reflexivity|].
    match goal with |- context [_create_database c ?w1] =>
      destruct (create_database_quiet c w1 Hs Hf) as [l' Hrun'] end.
    rewrite Hrun'. reflexivity.
Qed.

(** *** indexer without a connection *)

Lemma db_connect_fail_table d e :
  fst (db_connect d) = Raise e -> table (snd (db_connect d)) = table d.
Proof.
  unfold db_connect, take_turn.
  destruct (script d) as [|[|e0|rows] rest]; cbn; try discriminate.
  reflexivity.
Qed.

(** X12.  When the connection cannot be opened, [indexer] does not raise: it
    logs the error at level CRITICAL and returns.  The connect is its only
    call: no table is created, no pattern file looked for, no directory
    walked. *)
Theorem connection_failure_returns_quietly (directory : string) (w : World)
        (e : exn) :
  fst (connect w) = Raise e ->
  exists w1,
    indexer directory w = (Ok tt, w1)
    /\ fs w1 = fs w
    /\ table (db w1) = table (db w)
    /\ conns (db w1) = conns (db w)
    /\ trace w1 = (trace w ++ [EvConnect])%list
    /\ log w1
       = (log w
          ++ [(DEBUG, ("Starting indexing for directory " ++ directory)%string);
              (CRITICAL, ("Database connection error: " ++ exn_str e)%string)])%list.
Proof.
  intros Hc. rewrite connect_run in Hc. cbn [fst] in Hc.
  assert (Hd : fst (db_connect (db w)) = Raise e)
    by (destruct (fst (db_connect (db w))); congruence).
  unfold indexer.
  erewrite bind_ok by apply logger_run.
  unfold bind at 1, try_except.
  erewrite bind_raise
    by (rewrite connect_run; cbn [db touch]; rewrite Hd; reflexivity).
  erewrite bind_ok by apply logger_run.
  unfold ret. eexists. split; [reflexivity|].
  cbn [fs db log trace touch with_db].
  rewrite (db_connect_fail_table _ _ Hd), (db_connect_fail_conns _ _ Hd).
  rewrite !app_nil_r, <- !app_assoc. repeat split.
Qed.

(** *** One file, in any world *)

(** The run of [index_file] on a file with a digest, with the category it
    gives the entry. *)
Lemma index_file_digest_category root name pats c idx w size h :
  (name =? ".exclude_patterns") = false ->
  excluded_by pats (OsPath.join root name) = false ->
  size_of (fs w) (OsPath.join root name) = Ok size ->
  digest_of (fs w) (OsPath.join root name) = Some h ->
  let p := OsPath.join root name in
  let d1 := snd (db_execute (SelectByHash h) (db w)) in
  let seen := [EvGetsize p; EvOpenBinary p; EvExecute (SelectByHash h)] in
  exists cat l,
    (forall w0, fst (_detect_category p (snd (OsPath.splitext name)) w0)
                = Ok cat)
    /\ let entry := entry_of root name size h cat in
       let d2 := snd (db_execute (InsertRow entry) d1) in
       index_file root name pats c idx w
       = match fst (db_execute (SelectByHash h) (db w)) with
         | Raise e => (Raise e, with_db d1 (touch (fst l) seen w))
         | Ok (Some _) => (Ok idx, with_db d1 (touch (fst (snd l)) seen w))
         | Ok None =>
             match fst (db_execute (InsertRow entry) d1) with
             | Raise e =>
                 (Raise e,
                  with_db d2 (touch (fst (snd (snd l)))
                                    (seen ++ [EvExecute (InsertRow entry)]) w))
             | Ok _ =>
                 (Ok (idx ++ [entry])%list,
                  with_db d2 (touch (snd (snd (snd l)))
                                    (seen ++ [EvExecute (InsertRow entry);
                                              EvCommit]) w))
             end
         end.
Proof.
  intros Hn Hex Hsize Hdig p d1 seen.
  destruct (detect_category_run p (snd (OsPath.splitext name)))
    as (cat & lcat & Hcat).
  destruct (should_exclude_run p pats w) as [l1 Hl1].
  destruct (calculate_md5_run p (touch (l1 ++ []) ([] ++ [EvGetsize p]) w))
    as [l2 Hl2].
  exists cat. eexists (_, (_, (_, _))).
  split; [intros w0; now rewrite Hcat|]. cbv zeta.
  unfold index_file. rewrite Hn. cbv zeta. fold p.
  erewrite bind_ok by exact Hl1. fold p in Hex. rewrite Hex.
  erewrite bind_ok
    by (rewrite getsize_run; cbn [fs touch]; fold p in Hsize;
        rewrite Hsize; reflexivity).
  rewrite touch_touch.
  erewrite bind_ok by exact Hl2. cbn [fs touch]. fold p in Hdig.
  rewrite Hdig. rewrite touch_touch.
  unfold bind at 1. rewrite execute_run. cbn [db touch fst snd].
  fold d1.
  destruct (fst (db_execute (SelectByHash h) (db w))) as [[r|]|e].
  - erewrite bind_ok by apply logger_run.
    unfold ret. rewrite touch_with_db, !touch_touch. cbn [fst snd].
    reflexivity.
  - erewrite bind_ok by apply Hcat.
    unfold bind at 1. rewrite execute_run. cbn [db touch with_db fst snd].
    change (Build_Row name p h size cat)
      with (entry_of root name size h cat).
    destruct (fst (db_execute (InsertRow (entry_of root name size h cat)) d1))
      as [r|e].
    + erewrite bind_ok by apply commit_run.
      erewrite bind_ok by apply logger_run.
      unfold ret. cbn [fst snd].
      rewrite !touch_with_db, !touch_touch. cbn [with_db fs db log trace touch].
      rewrite <- !app_assoc. reflexivity.
    + cbn [fst snd].
      rewrite !touch_with_db, !touch_touch. cbn [with_db fs db log trace touch].
      rewrite <- !app_assoc. reflexivity.
  - cbn [fst snd]. rewrite !touch_touch. reflexivity.
Qed.

(** When [index_file] returns, the entries it has added to the index are
    the rows of its INSERT statements (none or one); such a row is in the
    table and describes the file; and the digest of the file, if it has
    one, is in the table. *)
Lemma index_file_ok root name pats c idx w idx' w1 :
  index_file root name pats c idx w = (Ok idx', w1) ->
  fs w1 = fs w
  /\ exists t,
       trace w1 = (trace w ++ t)%list
       /\ idx' = (idx ++ inserted t)%list
       /\ (forall r, In r (inserted t) ->
                     In r (rows_of (table (db w1)))
                     /\ describes (fs w) pats root name r)
       /\ (forall h,
             (name =? ".exclude_patterns") = false ->
             excluded_by pats (OsPath.join root name) = false ->
             digest_of (fs w) (OsPath.join root name) = Some h ->
             has_hash h (rows_of (table (db w1))) = true).
Proof.
  intros Hrun. set (p := OsPath.join root name).
  destruct ((name =? ".exclude_patterns") || excluded_by pats p) eqn:Hskip.
  { apply orb_true_iff in Hskip.
    destruct (index_file_excluded root name pats c idx w Hskip) as [l Hl].
    rewrite Hl in Hrun. injection Hrun as <- <-.
    split; [reflexivity|]. exists []. cbn. rewrite !app_nil_r.
    split; [reflexivity|]. split; [reflexivity|]. split; [easy|].
    intros h Hn Hex. destruct Hskip; congruence. }
  apply orb_false_iff in Hskip as [Hn Hex].
  destruct (size_of (fs w) p) as [size|e] eqn:Hsize.
  2:{ destruct (index_file_no_size root name pats c idx w e Hn Hex Hsize)
        as [l Hl].
      rewrite Hl in Hrun. discriminate. }
  destruct (digest_of (fs w) p) as [h|] eqn:Hdig.
  2:{ destruct (index_file_no_digest root name pats c idx w size
                  Hn Hex Hsize Hdig) as [l Hl].
      rewrite Hl in Hrun. injection Hrun as <- <-.
      split; [reflexivity|]. eexists. split; [reflexivity|].
      cbn. rewrite app_nil_r.
      split; [reflexivity|]. split; [easy|]. discriminate. }
  destruct (index_file_digest_category root name pats c idx w size h
              Hn Hex Hsize Hdig) as (cat & l & Hcat & Hl).
  cbv zeta in Hl. fold p in Hl, Hcat. rewrite Hl in Hrun. clear Hl.
  destruct (fst (db_execute (SelectByHash h) (db w))) as [[r0|]|e] eqn:Hsel;
    [| |discriminate].
  - injection Hrun as <- <-.
    split; [reflexivity|]. eexists. split; [reflexivity|].
    cbn [inserted flat_map app]. rewrite app_nil_r.
    split; [reflexivity|]. split; [easy|].
    intros h' _ _ Hh'. injection Hh' as <-.
    cbn [db with_db]. now apply select_found_has_hash with r0.
  - set (entry := entry_of root name size h cat) in *.
    destruct (fst (db_execute (InsertRow entry)
                              (snd (db_execute (SelectByHash h) (db w)))))
      as [x|e] eqn:Hins; [|discriminate].
    injection Hrun as <- <-.
    assert (Hin : In entry
              (rows_of (table (snd (db_execute (InsertRow entry)
                 (snd (db_execute (SelectByHash h) (db w)))))))).
    { eapply insert_ok_in_table. exact Hins. }
    split; [reflexivity|]. eexists. split; [reflexivity|].
    cbn [inserted flat_map app db with_db].
    split; [reflexivity|]. split.
    + intros r [<-|[]]. split; [exact Hin|].
      unfold describes. fold p. now repeat split.
    + intros h' _ _ Hh'. injection Hh' as <-.
      exact (in_has_hash entry _ Hin).
Qed.

(** *** The walk, in any world *)

Lemma inserted_app t1 t2 :
  inserted (t1 ++ t2) = (inserted t1 ++ inserted t2)%list.
Proof. apply flat_map_app. Qed.

Lemma grows_has_hash d d' h :
  grows d d' -> has_hash h (rows_of (table d)) = true ->
  has_hash h (rows_of (table d')) = true.
Proof.
  intros [extra ->] Hh. unfold has_hash in *.
  now rewrite existsb_app, Hh.
Qed.

Lemma index_visits_grows vs pats c idx w :
  grows (db w) (db (snd (index_visits vs pats c idx w))).
Proof.
  apply (lasting_index_visits (fun w w' => grows (db w) (db w'))).
  - intros w0. apply grows_refl.
  - intros w1 w2 w3. apply grows_trans.
  - intros l t w0. apply grows_refl.
  - intros c0 s0 w0. rewrite execute_run. apply db_execute_grows.
Qed.

Lemma index_visits_ok pats c vs :
  forall idx w idx' w1,
    index_visits vs pats c idx w = (Ok idx', w1) ->
    fs w1 = fs w
    /\ exists t,
         trace w1 = (trace w ++ t)%list
         /\ idx' = (idx ++ inserted t)%list
         /\ (forall r, In r (inserted t) ->
                In r (rows_of (table (db w1)))
                /\ exists root name,
                     In (root, name) vs /\ describes (fs w) pats root name r)
         /\ (forall root name h,
               In (root, name) vs ->
               (name =? ".exclude_patterns") = false ->
               excluded_by pats (OsPath.join root name) = false ->
               digest_of (fs w) (OsPath.join root name) = Some h ->
               has_hash h (rows_of (table (db w1))) = true).
Proof.
  induction vs as [|[root name] vs IH]; intros idx w idx' w1 Hrun.
  { cbn in Hrun. injection Hrun as <- <-.
    split; [reflexivity|]. exists []. cbn. rewrite !app_nil_r.
    repeat split; easy. }
  cbn [index_visits] in Hrun. unfold bind in Hrun.
  destruct (index_file root name pats c idx w) as [[idx1|e] wm] eqn:Hfile;
    [|discriminate].
  assert (Hg : grows (db wm) (db w1)).
  { assert (Hg := index_visits_grows vs pats c idx1 wm).
    now rewrite Hrun in Hg. }
  destruct (index_file_ok _ _ _ _ _ _ _ _ Hfile)
    as (Hfs1 & t1 & Ht1 & Hidx1 & Hrows1 & Hhash1).
  destruct (IH _ _ _ _ Hrun) as (Hfs2 & t2 & Ht2 & Hidx2 & Hrows2 & Hhash2).
  rewrite Hfs1 in *.
  split; [exact Hfs2|]. exists (t1 ++ t2)%list.
  split; [now rewrite Ht2, Ht1, app_assoc|].
  split; [now rewrite Hidx2, Hidx1, inserted_app, app_assoc|].
  split.
  - intros r Hr. rewrite inserted_app in Hr.
    apply in_app_or in Hr as [Hr|Hr].
    + destruct (Hrows1 r Hr) as [Hin Hd]. split.
      * now apply (grows_in _ _ _ Hg).
      * exists root, name. split; [now left | exact Hd].
    + destruct (Hrows2 r Hr) as [Hin (root' & name' & Hv & Hd)].
      split; [exact Hin|]. exists root', name'. split; [now right | exact Hd].
  - intros root' name' h [Heq|Hin] Hn Hex Hdig.
    + injection Heq as <- <-.
      apply (grows_has_hash _ _ _ Hg). now apply Hhash1.
    + now apply Hhash2 with root' name'.
Qed.

Lemma index_directory_ok directory pats c w idx w1 :
  _index_directory directory pats c w = (Ok idx, w1) ->
  fs w1 = fs w
  /\ exists t,
       trace w1 = (trace w ++ t)%list
       /\ idx = inserted t
       /\ (forall r, In r (inserted t) ->
              In r (rows_of (table (db w1)))
              /\ exists root name,
                   In (root, name) (visits (fs_walk (fs w) directory))
                   /\ describes (fs w) pats root name r)
       /\ (forall root name h,
             In (root, name) (visits (fs_walk (fs w) directory)) ->
             (name =? ".exclude_patterns") = false ->
             excluded_by pats (OsPath.join root name) = false ->
             digest_of (fs w) (OsPath.join root name) = Some h ->
             has_hash h (rows_of (table (db w1))) = true).
Proof.
  unfold _index_directory, os_walk. intros Hrun.
  erewrite bind_ok in Hrun by apply logger_run.
  unfold bind at 1 in Hrun.
  erewrite bind_ok in Hrun by apply emit_run.
  unfold bind at 1, get_fs, ret in Hrun.
  rewrite index_roots_visits, touch_touch in Hrun.
  cbn [fs touch] in Hrun.
  destruct (index_visits_ok _ _ _ _ _ _ _ Hrun)
    as (Hfs & t & Ht & Hidx & Hrows & Hhash).
  cbn [fs trace touch app] in *.
  split; [exact Hfs|]. exists (EvWalk directory :: t).
  split; [now rewrite Ht, <- app_assoc|].
  split; [exact Hidx|]. split; [exact Hrows | exact Hhash].
Qed.

(** X10.  What [_index_directory] returns is the list of the rows of the
    INSERT statements it has executed, in order, and every entry of it is a
    row of the table when the function returns - whatever the server and
    other clients did meanwhile. *)
Theorem index_directory_returns_its_inserts (directory : string)
        (pats : list Pattern) (c : Connection) (w : World)
        (idx : list Row) (w1 : World) :
  _index_directory directory pats c w = (Ok idx, w1) ->
  exists t,
    trace w1 = (trace w ++ t)%list
    /\ idx = inserted t
    /\ forall r, In r idx -> In r (rows_of (table (db w1))).
Proof.
  intros Hrun.
  destruct (index_directory_ok _ _ _ _ _ _ Hrun)
    as (_ & t & Ht & Hidx & Hrows & _).
  exists t. split; [exact Ht|]. split; [exact Hidx|].
  intros r Hr. rewrite Hidx in Hr. now apply Hrows.
Qed.

(** X11.  Every entry [_index_directory] returns was made for a file of the
    walk that is neither the pattern file nor excluded: it carries the
    file's name, its full path, the size [os.path.getsize] gives for it, the
    digest [_calculate_md5] gives for it and the category
    [_detect_category] gives for its path and extension. *)
Theorem index_entries_describe_files (directory : string)
        (pats : list Pattern) (c : Connection) (w : World)
        (idx : list Row) (w1 : World) :
  _index_directory directory pats c w = (Ok idx, w1) ->
  forall r, In r idx ->
    exists root name,
      In (root, name) (visits (fs_walk (fs w) directory))
      /\ name <> ".exclude_patterns"
      /\ (forall pat, In pat pats ->
                      re_search (pattern pat) (path r) = false)
      /\ file_name r = name
      /\ path r = OsPath.join root name
      /\ fst (os_path_getsize (path r) w) = Ok (file_size r)
      /\ fst (_calculate_md5 (path r) w) = Ok (Some (md5_hash r))
      /\ fst (_detect_category (path r) (snd (OsPath.splitext name)) w)
         = Ok (category r).
Proof.
  intros Hrun r Hr.
  destruct (index_directory_ok _ _ _ _ _ _ Hrun)
    as (_ & t & _ & Hidx & Hrows & _).
  rewrite Hidx in Hr.
  destruct (Hrows r Hr) as (_ & root & name & Hv & Hd).
  destruct Hd as (Hn & Hex & Hname & Hpath & Hsize & Hdig & Hcat).
  exists root, name. rewrite Hpath.
  split; [exact Hv|].
  split; [now apply String.eqb_neq|].
  split.
  { intros pat Hin. apply not_true_iff_false. intros Hm.
    now rewrite (excluded_by_some pats _ pat Hin Hm) in Hex. }
  split; [exact Hname|]. split; [reflexivity|].
  split; [now rewrite getsize_run|].
  split; [|apply Hcat].
  destruct (calculate_md5_run (OsPath.join root name) w) as [l ->].
  cbn [fst]. now rewrite Hdig.
Qed.

(** X15.  When [_index_directory] returns, every file of the walk that is
    neither the pattern file nor excluded and has a digest has that digest
    as the hash of a row of the table: the file was found there or has been
    inserted, and nothing removes rows.  This holds with other clients
    writing at the same time. *)
Theorem indexed_digests_are_stored (directory : string)
        (pats : list Pattern) (c : Connection) (w : World)
        (idx : list Row) (w1 : World) :
  _index_directory directory pats c w = (Ok idx, w1) ->
  forall root name h,
    In (root, name) (visits (fs_walk (fs w) directory)) ->
    name <> ".exclude_patterns" ->
    (forall pat, In pat pats ->
                 re_search (pattern pat) (OsPath.join root name) = false) ->
    fst (_calculate_md5 (OsPath.join root name) w) = Ok (Some h) ->
    has_hash h (rows_of (table (db w1))) = true.
Proof.
  intros Hrun root name h Hv Hn Hex Hmd5.
  destruct (index_directory_ok _ _ _ _ _ _ Hrun)
    as (_ & t & _ & _ & _ & Hh).
  apply Hh with root name; try assumption.
  - now apply String.eqb_neq.
  - now apply not_excluded.
  - now apply calculate_md5_value.
Qed.

(** *** The whole run, in any world *)

Lemma indexer_connected_run directory w :
  fst (db_connect (db w)) = Ok tt ->
  indexer directory w
  = match indexing directory connection_object
            (touch [(INFO, "Connected to the database successfully.")] []
               (with_db (snd (db_connect (db w)))
                  (touch [] [EvConnect]
                     (touch [(DEBUG, "Starting indexing for directory "
                                     ++ directory)] [] w)))) with
    | (Ok file_index, w2) =>
        (Ok tt,
         touch [(DEBUG, "Database connection closed.")] []
           (with_db (db_close (db w2))
              (touch [(INFO, "Indexing complete. "
                             ++ Str.of_nat (List.length file_index)
                             ++ " files indexed.")]
                     [EvClose] w2)))
    | (Raise e, w2) => (Raise e, w2)
    end.
Proof.
  intros Hc. unfold indexer.
  erewrite bind_ok by apply logger_run.
  unfold bind at 1, try_except.
  erewrite bind_ok
    by (rewrite connect_run; cbn [db touch]; rewrite Hc; reflexivity).
  erewrite bind_ok by apply logger_run.
  unfold ret at 1. cbv beta iota.
  unfold indexing, bind.
  match goal with |- context [_create_database connection_object ?wc] =>
    destruct (_create_database connection_object wc) as [[[]|e] w1] end;
    [|reflexivity].
  destruct (_load_exclusion_patterns directory w1) as [[pats|e] w2];
    [|reflexivity].
  destruct (_index_directory directory pats connection_object w2)
    as [[file_index|e] w3]; [|reflexivity].
  rewrite logger_run, close_run, logger_run.
  now rewrite touch_touch.
Qed.

Lemma connect_ok_db w c :
  fst (connect w) = Ok c -> fst (db_connect (db w)) = Ok tt.
Proof.
  rewrite connect_run. cbn [fst].
  destruct (fst (db_connect (db w))) as [[]|e]; [reflexivity | discriminate].
Qed.

Lemma inserted_none t : Forall no_insert t -> inserted t = [].
Proof.
  induction 1 as [|e t He _ IH]; [reflexivity|].
  change (e :: t) with ([e] ++ t)%list. now rewrite inserted_app, He, IH.
Qed.

(** When [indexing] returns, the index it returns is the list of the rows
    it has inserted. *)
Lemma indexing_ok directory c w idx w1 :
  indexing directory c w = (Ok idx, w1) ->
  exists t, trace w1 = (trace w ++ t)%list /\ inserted t = idx.
Proof.
  unfold indexing, bind. intros Hrun.
  assert (Hk1 := keeps_create_database no_insert c eq_refl eq_refl w).
  destruct (_create_database c w) as [[[]|e] wa]; [|discriminate].
  assert (Hk2 := keeps_load_exclusion_patterns no_insert directory
                   ltac:(now intros []) wa).
  destruct (_load_exclusion_patterns directory wa) as [[pats|e] wb];
    [|discriminate].
  cbn [snd] in *.
  destruct Hk1 as (_ & _ & t1 & Ht1 & Hn1).
  destruct Hk2 as (_ & _ & t2 & Ht2 & Hn2).
  destruct (index_directory_ok _ _ _ _ _ _ Hrun)
    as (_ & t3 & Ht3 & Hidx & _).
  exists (t1 ++ t2 ++ t3)%list. split.
  - now rewrite Ht3, Ht2, Ht1, <- !app_assoc.
  - now rewrite !inserted_app, (inserted_none _ Hn1), (inserted_none _ Hn2).
Qed.

(** X13.  The number in the closing log line "Indexing complete. N files
    indexed." is the number of INSERT statements the run has executed. *)
Theorem reported_count_is_number_of_inserts (directory : string)
        (w w1 : World) :
  fst (connect w) = Ok connection_object ->
  indexer directory w = (Ok tt, w1) ->
  exists t,
    trace w1 = (trace w ++ t)%list
    /\ In (INFO, "Indexing complete. "
                 ++ Str.of_nat (List.length (inserted t))
                 ++ " files indexed.")
          (log w1).
Proof.
  intros Hc Hrun. apply connect_ok_db in Hc.
  rewrite (indexer_connected_run directory w Hc) in Hrun.
  match type of Hrun with context [indexing _ _ ?wc] =>
    destruct (indexing directory connection_object wc)
      as [[idx|e] w2] eqn:Hidx end; [|discriminate].
  injection Hrun as <-.
  destruct (indexing_ok _ _ _ _ _ Hidx) as (t & Ht & Hins).
  exists ([EvConnect] ++ t ++ [EvClose])%list. split.
  - cbn [trace touch with_db]. rewrite Ht. cbn [trace touch with_db].
    now rewrite !app_nil_r, <- !app_assoc.
  - rewrite !inserted_app, Hins. cbn [inserted flat_map app].
    rewrite app_nil_r. cbn [log touch with_db].
    apply in_or_app. left. apply in_or_app. right. now left.
Qed.

(** A walk none of whose files reaches the lookup makes no call to the
    database. *)
Lemma index_visits_without_lookup pats c vs :
  forall idx w,
    (forall root name, In (root, name) vs ->
       (name =? ".exclude_patterns") = true
       \/ excluded_by pats (OsPath.join root name) = true
       \/ ((exists size, size_of (fs w) (OsPath.join root name) = Ok size)
           /\ digest_of (fs w) (OsPath.join root name) = None)) ->
    exists l t,
      index_visits vs pats c idx w = (Ok idx, touch l t w)
      /\ Forall file_event t.
Proof.
  induction vs as [|[root name] vs IH]; intros idx w Hall.
  { exists [], []. cbn. unfold ret. now rewrite touch_nil. }
  cbn [index_visits].
  assert (Hrest : forall l t,
            Forall file_event t ->
            index_file root name pats c idx w = (Ok idx, touch l t w) ->
            exists l' t',
              bind (index_file root name pats c idx)
                   (fun idx1 => index_visits vs pats c idx1) w
              = (Ok idx, touch l' t' w)
              /\ Forall file_event t').
  { intros l t Ht Hl. erewrite bind_ok by exact Hl.
    destruct (IH idx (touch l t w)) as (l' & t' & Hrun & Ht').
    { intros r n Hin. apply Hall. now right. }
    rewrite Hrun, touch_touch. eexists _, _. split; [reflexivity|].
    now apply Forall_app. }
  destruct (Hall root name (or_introl eq_refl))
    as [Hn|[Hex|[[size Hsize] Hdig]]].
  - destruct (index_file_excluded root name pats c idx w (or_introl Hn))
      as [l Hl].
    now apply Hrest with l [].
  - destruct (index_file_excluded root name pats c idx w (or_intror Hex))
      as [l Hl].
    now apply Hrest with l [].
  - destruct (name =? ".exclude_patterns") eqn:Hn.
    { destruct (index_file_excluded root name pats c idx w (or_introl Hn))
        as [l Hl].
      now apply Hrest with l []. }
    destruct (excluded_by pats (OsPath.join root name)) eqn:Hex.
    { destruct (index_file_excluded root name pats c idx w (or_intror Hex))
        as [l Hl].
      now apply Hrest with l []. }
    destruct (index_file_no_digest root name pats c idx w size
                Hn Hex Hsize Hdig) as [l Hl].
    eapply Hrest; [|exact Hl]. now repeat constructor.
Qed.

(** X14.  When no file of the walk reaches the lookup - the directory is
    empty, or each file is the pattern file, is excluded, or has no digest -
    the run sends the server no lookup and no INSERT, and [indexer] returns
    normally with the connection closed, whatever the server did to the
    CREATE TABLE statement. *)
Theorem run_without_lookup_completes (directory : string) (w : World)
        (pats : list Pattern) :
  fst (connect w) = Ok connection_object ->
  fst (_load_exclusion_patterns directory w) = Ok pats ->
  (forall root name,
      In (root, name) (visits (fs_walk (fs w) directory)) ->
      name = ".exclude_patterns"
      \/ (exists pat, In pat pats
                      /\ re_search (pattern pat) (OsPath.join root name) = true)
      \/ ((exists size, fst (os_path_getsize (OsPath.join root name) w)
                        = Ok size)
          /\ fst (_calculate_md5 (OsPath.join root name) w) = Ok None)) ->
  exists w1 t,
    indexer directory w = (Ok tt, w1)
    /\ trace w1 = (trace w ++ t)%list
    /\ Forall no_query t
    /\ conns (db w1) = conns (db w).
Proof.
  intros Hc Hload Hall. apply connect_ok_db in Hc.
  rewrite (indexer_connected_run directory w Hc).
  set (wc := touch _ _ (with_db _ _)).
  assert (Hidx : exists w2 t,
             indexing directory connection_object wc = (Ok [], w2)
             /\ trace w2 = (trace wc ++ t)%list /\ Forall no_query t
             /\ conns (db w2) = conns (db wc)).
  { unfold indexing.
    destruct (create_database_ok connection_object wc) as [wa Hcreate].
    assert (Hk1 := keeps_create_database no_query connection_object I I wc).
    rewrite Hcreate in Hk1. cbn [snd] in Hk1.
    destruct Hk1 as (Hfsa & Hca & t1 & Ht1 & Hq1).
    erewrite bind_ok by exact Hcreate.
    destruct (load_value directory w wa pats Hfsa Hload)
      as (l2 & t2 & Hl2 & Hp2).
    erewrite bind_ok by exact Hl2.
    unfold _index_directory, os_walk.
    erewrite bind_ok by apply logger_run.
    unfold bind at 1.
    erewrite bind_ok by apply emit_run.
    unfold bind at 1, get_fs, ret.
    rewrite index_roots_visits, !touch_touch. cbn [fs touch].
    rewrite Hfsa. change (fs wc) with (fs w).
    match goal with |- context [index_visits _ _ _ _ ?w3] =>
      destruct (index_visits_without_lookup pats connection_object
                  (visits (fs_walk (fs w) directory)) [] w3)
        as (l3 & t3 & Hrun & Hf3) end.
    { intros root name Hin. cbn [fs touch]. rewrite Hfsa.
      change (fs wc) with (fs w).
      destruct (Hall root name Hin) as [->|[(pat & Hp & Hm)|[[size Hs] Hd]]].
      - now left.
      - right; left. eapply excluded_by_some; eauto.
      - right; right. split.
        + exists size. now apply getsize_value.
        + now apply calculate_md5_value. }
    rewrite Hrun, touch_touch. eexists _, _. split; [reflexivity|].
    cbn [trace db touch]. rewrite Ht1, <- !app_assoc.
    split; [reflexivity|]. split; [|exact Hca].
    assert (Hq2 : Forall no_query t2)
      by (revert Hp2; apply Forall_impl; now intros []).
    assert (Hq3 : Forall no_query t3)
      by (revert Hf3; apply Forall_impl; now intros []).
    rewrite !Forall_app. repeat split; try assumption;
      now repeat constructor. }
  destruct Hidx as (w2 & t & -> & Ht & Hq & Hconns).
  eexists _, ([EvConnect] ++ t ++ [EvClose])%list.
  split; [reflexivity|].
  cbn [trace db touch with_db db_close conns].
  split; [|split].
  - rewrite Ht. unfold wc. cbn [trace touch with_db].
    now rewrite !app_nil_r, <- !app_assoc.
  - apply Forall_app. split; [now repeat constructor|].
    apply Forall_app. split; [exact Hq | now repeat constructor].
  - rewrite Hconns. unfold wc. cbn [db touch with_db].
    now rewrite (db_connect_conns _ Hc).
Qed.

End Further.

(** ** Concrete runs *)

Import Sample.

(** C3.  The server refuses the CREATE TABLE statement (world
    [w_no_schema]).
    [_create_database] logs the failure at level CRITICAL and returns;
    [indexer] goes on: it looks for the pattern file, walks the directory,
    takes the size of the first file and hashes it, and ends only when the
    lookup is refused by the connection. *)
Theorem schema_failure_run_goes_on :
  fst (indexer "d" w_no_schema) = Raise InFailedSqlTransaction
  /\ trace (snd (indexer "d" w_no_schema))
     = [EvConnect; EvExecute CreateTable;
        EvExists "d/.exclude_patterns"; EvWalk "d";
        EvGetsize "d/a"; EvOpenBinary "d/a";
        EvExecute (SelectByHash "02129bb861061d1a052c592e2dc6b383")]
  /\ In (CRITICAL,
         "Error creating database table: permission denied for schema public")
        (log (snd (indexer "d" w_no_schema))).
Proof.
  split; [vm_compute; reflexivity|].
  split; [vm_compute; reflexivity|].
  vm_compute. tauto.
Qed.

(** C1, as stated, fails.  Another client commits a row with the hash of
    [d/a] between this run's lookup and its insert (world [w_race]): the
    insert raises a uniqueness violation, nothing catches it, [indexer]
    ends with the exception, and [d/b] is never visited.  Likewise a
    dangling link (world [w_dangling]): taking its size raises, [indexer]
    ends with the exception, and [g/real] is never visited. *)
Lemma per_file_exception_ends_run :
  fst (indexer "d" w_race) = Raise UniqueViolation
  /\ trace (snd (indexer "d" w_race))
     = [EvConnect; EvExecute CreateTable; EvCommit;
        EvExists "d/.exclude_patterns"; EvWalk "d";
        EvGetsize "d/a"; EvOpenBinary "d/a";
        EvExecute (SelectByHash "02129bb861061d1a052c592e2dc6b383");
        EvExecute (InsertRow {| file_name := "a"; path := "d/a";
                                md5_hash := "02129bb861061d1a052c592e2dc6b383";
                                file_size := 1; category := "other" |})]
  /\ fst (indexer "g" w_dangling) = Raise FileNotFoundError
  /\ trace (snd (indexer "g" w_dangling))
     = [EvConnect; EvExecute CreateTable; EvCommit;
        EvExists "g/.exclude_patterns"; EvWalk "g"; EvGetsize "g/ghost"].
Proof. repeat split; vm_compute; reflexivity. Qed.

(** C9, as stated, fails.  The walk meets a dangling symbolic link (world
    [w_dangling]): [os.path.getsize] raises, the exception leaves
    [indexer], and the connection opened at the start stays open; no close
    is among the calls of the run. *)
Lemma escaping_exception_leaves_connection_open :
  fst (db_connect (db w_dangling)) = Ok tt
  /\ fst (indexer "g" w_dangling) = Raise FileNotFoundError
  /\ conns (db w_dangling) = 0
  /\ conns (db (snd (indexer "g" w_dangling))) = 1
  /\ trace (snd (indexer "g" w_dangling))
     = [EvConnect; EvExecute CreateTable; EvCommit;
        EvExists "g/.exclude_patterns"; EvWalk "g"; EvGetsize "g/ghost"].
Proof. repeat split; vm_compute; reflexivity. Qed.

(** *** The theorems at concrete worlds *)

Lemma categorize_pure_movies_first_witness :
  Str.contains "movies" (Str.lower "/srv/Movies/clip.mp3") = true
  /\ fst (_detect_category "/srv/Movies/clip.mp3" ".mp3" w_calm) = Ok "movie".
Proof.
  split; [reflexivity|].
  apply (proj2 (proj2 (categorize_pure_movies_first
                         "/srv/Movies/clip.mp3" ".mp3" w_calm w_calm))).
  reflexivity.
Defined.

Lemma mp3_audio_unknownext_other_witness :
  fst (_detect_category "docs/song" ".mp3" w_calm) = Ok "audio"
  /\ fst (_detect_category "docs/song" ".unknownext" w_calm) = Ok "other".
Proof.
  apply (mp3_audio_unknownext_other "docs/song" w_calm).
  intros c ks k Hc Hk.
  repeat (destruct Hc as [Hc|Hc];
          [injection Hc as <- <-;
           repeat (destruct Hk as [<-|Hk]; [reflexivity|]); destruct Hk|]).
  destruct Hc.
Defined.

Lemma load_patterns_missing_or_compiled_witness :
  fst (_load_exclusion_patterns "d" w_calm) = Ok []
  /\ fst (_load_exclusion_patterns "b" w_bad_pattern) = Ok []
  /\ fst (_load_exclusion_patterns "t" w_patterns)
     = Ok [{| pattern := "tmp" |}; {| pattern := "bak" |}].
Proof.
  split; [|split].
  - apply (proj1 (proj2 (load_patterns_missing_or_compiled "d" w_calm))).
    reflexivity.
  - apply (proj2 (proj2 (proj2 (load_patterns_missing_or_compiled
                                  "b" w_bad_pattern)))
             (regular ("tmp" ++ nl ++ "(" ++ nl)));
      try reflexivity.
    exists "(". split; [right; now left | reflexivity].
  - apply (proj1 (proj2 (proj2 (load_patterns_missing_or_compiled
                                  "t" w_patterns)))
             (regular ("tmp" ++ nl ++ nl ++ "  bak " ++ nl)));
      try reflexivity.
    intros s [<-|[<-|[]]]; reflexivity.
Defined.

Lemma excluded_file_untouched_witness :
  (exists w1,
      index_file "t" "scratch.tmp"
                 [{| pattern := "tmp" |}; {| pattern := "bak" |}]
                 connection_object [] w_patterns = (Ok [], w1)
      /\ fs w1 = fs w_patterns /\ db w1 = db w_patterns
      /\ trace w1 = trace w_patterns)
  /\ (exists t,
        trace (snd (indexer "t" w_patterns)) = (trace w_patterns ++ t)%list
        /\ forall e, In e t -> ~ concerns "t/scratch.tmp" e).
Proof.
  destruct excluded_file_untouched as [Hfile Hrun]. split.
  - apply Hfile. right. exists {| pattern := "tmp" |}.
    split; [now left | reflexivity].
  - destruct (Hrun "t" w_patterns
                   [{| pattern := "tmp" |}; {| pattern := "bak" |}]
                   eq_refl) as (t & Ht & Hno).
    exists t. split; [exact Ht|].
    intros e He. apply (Hno "t/scratch.tmp" {| pattern := "tmp" |} e);
      [now left | reflexivity | exact He].
Defined.

Lemma hash_failure_skips_file_witness :
  exists w1,
    index_file "u" "locked" [] connection_object [] w_locked = (Ok [], w1)
    /\ fs w1 = fs w_locked
    /\ db w1 = db w_locked
    /\ trace w1 = (trace w_locked
                   ++ [EvGetsize "u/locked"; EvOpenBinary "u/locked"])%list
    /\ index_files "u" ["locked"; "ok"] [] connection_object [] w_locked
       = index_files "u" ["ok"] [] connection_object [] w1.
Proof.
  apply (hash_failure_skips_file "u" "locked" ["ok"] [] connection_object []
                                 w_locked).
  - discriminate.
  - intros pat [].
  - exists 1%Z. reflexivity.
  - reflexivity.
Defined.

Lemma per_file_skips_continue_walk_witness :
  exists w1 t,
    index_file "d" "a" [] connection_object [] w_known = (Ok [], w1)
    /\ trace w1 = (trace w_known ++ t)%list
    /\ (forall r, ~ In (EvExecute (InsertRow r)) t)
    /\ index_files "d" ["a"; "b"] [] connection_object [] w_known
       = index_files "d" ["b"] [] connection_object [] w1.
Proof.
  apply (per_file_skips_continue_walk "d" "a" ["b"] [] connection_object []
                                      w_known).
  - discriminate.
  - intros pat [].
  - exists 1%Z. reflexivity.
  - right. exists "02129bb861061d1a052c592e2dc6b383", row_elsewhere.
    split; reflexivity.
Defined.

Lemma normal_exit_closes_connection_once_witness :
  conns (db (snd (indexer "d" w_calm))) = conns (db w_calm)
  /\ exists t,
       trace (snd (indexer "d" w_calm))
       = (trace w_calm ++ [EvConnect] ++ t ++ [EvClose])%list
       /\ Forall inner t.
Proof.
  apply (normal_exit_closes_connection_once "d" w_calm
                                            (snd (indexer "d" w_calm))).
  vm_compute. reflexivity.
Defined.

Lemma first_content_wins_and_rerun_inserts_nothing_witness :
  exists new,
    table (db (snd (indexer "s" w_scenario)))
    = Some (rows_of (table (db w_scenario)) ++ new)%list
    /\ map key new
       = first_encountered
           (map md5_hash (rows_of (table (db w_scenario))))
           (fst (candidates (fs w_scenario) []
                            (visits (fs_walk (fs w_scenario) "s"))))
    /\ NoDup (map md5_hash new)
    /\ (forall r, In r new ->
                  has_hash (md5_hash r) (rows_of (table (db w_scenario)))
                  = false)
    /\ (forall r, In r new ->
          exists cs1 cs2,
            fst (candidates (fs w_scenario) []
                            (visits (fs_walk (fs w_scenario) "s")))
            = (cs1 ++ key r :: cs2)%list
            /\ ~ In (md5_hash r) (map snd cs1))
    /\ fst (indexer "s" w_scenario)
       = outcome (snd (candidates (fs w_scenario) []
                                  (visits (fs_walk (fs w_scenario) "s")))) tt
    /\ table (db (snd (indexer "s" (snd (indexer "s" w_scenario)))))
       = table (db (snd (indexer "s" w_scenario)))
    /\ fst (indexer "s" (snd (indexer "s" w_scenario)))
       = fst (indexer "s" w_scenario).
Proof.
  apply (first_content_wins_and_rerun_inserts_nothing "s" w_scenario []);
    reflexivity.
Defined.

(** *** The further properties at concrete worlds *)

Lemma keyword_phase_precedence_witness :
  fst (_detect_category "/srv/Movies/tv/ebook.mp3" ".mp3" w_calm) = Ok "movie"
  /\ fst (_detect_category "/srv/TV/ebook.mp3" ".mp3" w_calm) = Ok "tv show"
  /\ fst (_detect_category "/srv/ebook.mp3" ".mp3" w_calm) = Ok "book".
Proof.
  split; [|split].
  - apply (proj1 (keyword_phase_precedence "/srv/Movies/tv/ebook.mp3"
                                           ".mp3" w_calm)).
    reflexivity.
  - apply (proj1 (proj2 (keyword_phase_precedence "/srv/TV/ebook.mp3"
                                                  ".mp3" w_calm)));
      reflexivity.
  - apply (proj2 (proj2 (keyword_phase_precedence "/srv/ebook.mp3"
                                                  ".mp3" w_calm)));
      reflexivity.
Defined.

Lemma listed_extension_gives_its_category_witness :
  fst (_detect_category "docs/song" ".MP3" w_calm) = Ok "audio"
  /\ fst (_detect_category "docs/song" ".xyz" w_calm) = Ok "other".
Proof.
  assert (Hno : forall c ks k, In (c, ks) categories -> In k ks ->
                  Str.contains k (Str.lower "docs/song") = false).
  { intros c ks k Hc Hk.
    repeat (destruct Hc as [Hc|Hc];
            [injection Hc as <- <-;
             repeat (destruct Hk as [<-|Hk]; [reflexivity|]); destruct Hk|]).
    destruct Hc. }
  split.
  - apply (proj1 (listed_extension_gives_its_category
                    "docs/song" ".MP3" w_calm Hno)
             "audio" [".mp3"; ".wav"; ".flac"]); now left.
  - apply (proj2 (listed_extension_gives_its_category
                    "docs/song" ".xyz" w_calm Hno)).
    intros c exts Hc Hin.
    repeat (destruct Hc as [Hc|Hc];
            [injection Hc as <- <-;
             repeat (destruct Hin as [Hin|Hin]; [discriminate|]);
             destruct Hin|]).
    destruct Hc.
Defined.

Lemma should_exclude_first_match_witness :
  exists w1 pat,
    _should_exclude "t/scratch.tmp"
                    [{| pattern := "bak" |}; {| pattern := "tmp" |};
                     {| pattern := "scratch" |}] w_calm
    = (Ok true, w1)
    /\ re_search (pattern pat) "t/scratch.tmp" = true
    /\ log w1 = (log w_calm
                 ++ [(INFO, ("File t/scratch.tmp excluded by pattern "
                             ++ pattern pat)%string)])%list.
Proof.
  destruct (should_exclude_first_match
              "t/scratch.tmp"
              [{| pattern := "bak" |}; {| pattern := "tmp" |};
               {| pattern := "scratch" |}] w_calm)
    as (b & w1 & Hrun & _ & _ & _ & _ & Hyes).
  assert (Hb : fst (_should_exclude
                      "t/scratch.tmp"
                      [{| pattern := "bak" |}; {| pattern := "tmp" |};
                       {| pattern := "scratch" |}] w_calm) = Ok true)
    by reflexivity.
  rewrite Hrun in Hb. injection Hb as ->.
  destruct (Hyes eq_refl) as (pre & pat & post & _ & _ & Hm & Hlog).
  exists w1, pat. split; [exact Hrun|]. split; [exact Hm | exact Hlog].
Defined.

Lemma load_patterns_failure_swallowed_witness :
  (exists w1,
      _load_exclusion_patterns "p" w_sealed = (Ok [], w1)
      /\ log w1
         = (log w_sealed
            ++ [(DEBUG, ("Loading exclusion patterns from " ++ "p")%string);
                (ERROR, ("Error loading exclusion patterns: "
                         ++ exn_str PermissionError)%string)])%list)
  /\ (exists w1,
        _load_exclusion_patterns "r" w_failing_read = (Ok [], w1)
        /\ log w1
           = (log w_failing_read
              ++ [(DEBUG, ("Loading exclusion patterns from " ++ "r")%string);
                  (INFO, ("Exclusion patterns loaded from "
                          ++ OsPath.join "r" ".exclude_patterns")%string);
                  (ERROR, ("Error loading exclusion patterns: "
                           ++ exn_str OSError)%string)])%list)
  /\ (exists w1,
        _load_exclusion_patterns "b" w_bad_pattern = (Ok [], w1)
        /\ log w1
           = (log w_bad_pattern
              ++ [(DEBUG, ("Loading exclusion patterns from " ++ "b")%string);
                  (INFO, ("Exclusion patterns loaded from "
                          ++ OsPath.join "b" ".exclude_patterns")%string);
                  (ERROR, ("Error loading exclusion patterns: "
                           ++ exn_str ReError)%string)])%list).
Proof.
  split; [|split].
  - apply (proj1 (load_patterns_failure_swallowed
                    "p" w_sealed PermissionError eq_refl)).
    reflexivity.
  - apply (proj2 (load_patterns_failure_swallowed
                    "r" w_failing_read OSError eq_refl)
             {| stat_ok := true; open_ok := true;
                data := list_byte_of_string ("tmp" ++ nl);
                bad_from := Some 0%nat |}).
    + reflexivity.
    + left. reflexivity.
  - apply (proj2 (load_patterns_failure_swallowed
                    "b" w_bad_pattern ReError eq_refl)
             (regular ("tmp" ++ nl ++ "(" ++ nl))).
    + reflexivity.
    + right. exists ["tmp" ++ nl; "(" ++ nl]. split; reflexivity.
Defined.

Lemma create_database_keeps_rows_witness :
  table (db (snd (_create_database connection_object w_known)))
  = Some [row_elsewhere]
  /\ table (db (snd (_create_database
                       connection_object
                       (snd (_create_database connection_object w_known)))))
     = table (db (snd (_create_database connection_object w_known))).
Proof.
  apply (proj2 (create_database_keeps_rows connection_object w_known));
    reflexivity.
Defined.

Lemma connection_failure_returns_quietly_witness :
  exists w1,
    indexer "d" w_unreachable = (Ok tt, w1)
    /\ fs w1 = fs w_unreachable
    /\ table (db w1) = table (db w_unreachable)
    /\ conns (db w1) = conns (db w_unreachable)
    /\ trace w1 = (trace w_unreachable ++ [EvConnect])%list
    /\ log w1
       = (log w_unreachable
          ++ [(DEBUG, ("Starting indexing for directory " ++ "d")%string);
              (CRITICAL, ("Database connection error: "
                          ++ exn_str OperationalError)%string)])%list.
Proof.
  apply (connection_failure_returns_quietly "d" w_unreachable
                                            OperationalError).
  reflexivity.
Defined.

Lemma index_directory_returns_its_inserts_witness :
  exists t,
    trace (snd (_index_directory "d" [] connection_object w_known))
    = (trace w_known ++ t)%list
    /\ [row_b] = inserted t
    /\ forall r, In r [row_b] ->
         In r (rows_of (table (db (snd (_index_directory
                                          "d" [] connection_object
                                          w_known))))).
Proof.
  apply (index_directory_returns_its_inserts
           "d" [] connection_object w_known [row_b]
           (snd (_index_directory "d" [] connection_object w_known))).
  vm_compute. reflexivity.
Defined.

Lemma index_entries_describe_files_witness :
  exists root name,
    In (root, name) (visits (fs_walk (fs w_known) "d"))
    /\ name <> ".exclude_patterns"
    /\ (forall pat, In pat [] ->
                    re_search (pattern pat) (path row_b) = false)
    /\ file_name row_b = name
    /\ path row_b = OsPath.join root name
    /\ fst (os_path_getsize (path row_b) w_known) = Ok (file_size row_b)
    /\ fst (_calculate_md5 (path row_b) w_known)
       = Ok (Some (md5_hash row_b))
    /\ fst (_detect_category (path row_b) (snd (OsPath.splitext name))
                             w_known)
       = Ok (category row_b).
Proof.
  apply (index_entries_describe_files
           "d" [] connection_object w_known [row_b]
           (snd (_index_directory "d" [] connection_object w_known))).
  - vm_compute. reflexivity.
  - now left.
Defined.

Lemma indexed_digests_are_stored_witness :
  has_hash "02129bb861061d1a052c592e2dc6b383"
           (rows_of (table (db (snd (_index_directory
                                       "d" [] connection_object w_known)))))
  = true.
Proof.
  assert (Hrun : _index_directory "d" [] connection_object w_known
                 = (Ok [row_b],
                    snd (_index_directory "d" [] connection_object w_known)))
    by (vm_compute; reflexivity).
  apply (indexed_digests_are_stored
           "d" [] connection_object w_known [row_b]
           (snd (_index_directory "d" [] connection_object w_known))
           Hrun "d" "a").
  - now left.
  - discriminate.
  - intros pat [].
  - reflexivity.
Defined.

Lemma reported_count_is_number_of_inserts_witness :
  exists t,
    trace (snd (indexer "d" w_calm)) = (trace w_calm ++ t)%list
    /\ In (INFO, "Indexing complete. "
                 ++ Str.of_nat (List.length (inserted t))
                 ++ " files indexed.")
          (log (snd (indexer "d" w_calm))).
Proof.
  apply (reported_count_is_number_of_inserts "d" w_calm
                                             (snd (indexer "d" w_calm))).
  - reflexivity.
  - vm_compute. reflexivity.
Defined.

Lemma run_without_lookup_completes_witness :
  exists w1 t,
    indexer "q" w_nothing = (Ok tt, w1)
    /\ trace w1 = (trace w_nothing ++ t)%list
    /\ Forall no_query t
    /\ conns (db w1) = conns (db w_nothing).
Proof.
  apply (run_without_lookup_completes "q" w_nothing [{| pattern := "tmp" |}]).
  - reflexivity.
  - reflexivity.
  - intros root name Hin. vm_compute in Hin.
    destruct Hin as [Hin|[Hin|[Hin|[]]]]; injection Hin as <- <-.
    + now left.
    + right; left. exists {| pattern := "tmp" |}.
      split; [now left | reflexivity].
    + right; right. split; [exists 1%Z; reflexivity | reflexivity].
Defined.
